(** * AutoInspect AI: the web client and the estimation contract

    A shallow embedding of the JavaScript sources of the client
    ([services/api.js], [App.jsx], [components/DetectionResults.jsx],
    [components/CostEstimation.jsx]) together with the estimation engine
    the client talks to.  The engine itself is server code and is
    modelled from the specification; everything else follows the sources
    statement by statement.

    JavaScript numbers are IEEE 754 binary64 values and are modelled by
    Rocq's primitive floats, so [NaN], the two zeros and the truthiness of
    numbers are those of the language.  The amounts of the engine are
    exact rationals. *)

From Stdlib Require Import Floats Uint63 Ascii QArith Lia.
From stdpp Require Import gmap strings list pretty.

(* Decimal literals denote the nearest binary64 value, as in JavaScript. *)
Set Warnings "-inexact-float".

(** ** The fragment of JavaScript the sources use *)

Module JS.

(** Primitive values, and objects seen only through their string
    coercion (arrays, functions and plain objects are always truthy). *)
Inductive value : Type :=
| VUndefined
| VNull
| VBool (b : bool)
| VNum (x : float)
| VStr (s : string)
| VObj (repr : string).

(** [ToBoolean]: [undefined], [null], [false], [+0], [-0], [NaN] and the
    empty string are falsy, everything else is truthy. *)
Definition ToBoolean (v : value) : bool :=
  match v with
  | VUndefined | VNull => false
  | VBool b => b
  | VNum x => negb ((x =? 0)%float || PrimFloat.is_nan x)
  | VStr s => negb (String.eqb s "")
  | VObj _ => true
  end.

(** [a || b] *)
Definition js_or (a b : value) : value :=
  if ToBoolean a then a else b.

(** [a === b] on primitives.  Two numbers are compared as floats (so
    [NaN === NaN] is false and [0 === -0] is true); an object is never
    identical to a literal. *)
Definition strict_eq (a b : value) : bool :=
  match a, b with
  | VUndefined, VUndefined => true
  | VNull, VNull => true
  | VBool x, VBool y => Bool.eqb x y
  | VNum x, VNum y => (x =? y)%float
  | VStr x, VStr y => String.eqb x y
  | _, _ => false
  end.

(** [a !== b] *)
Definition strict_ne (a b : value) : bool := negb (strict_eq a b).

(** A [File] handed over by the drop zone. *)
Record File : Type := { file_name : string; file_type : string; file_size : N }.

(** What the host provides and the repository does not define:
    [Number.prototype.toString], [Number.prototype.toFixed],
    [URL.createObjectURL] and the [format] of
    [Intl.NumberFormat('en-US', {style: 'currency', currency: 'USD'})]. *)
Class Runtime : Type := {
  Number_toString : float → string;
  Number_toFixed : float → nat → string;
  URL_createObjectURL : File → string;
  Intl_formatUSD : float → string
}.

(** [ToString] *)
Definition ToString `{Runtime} (v : value) : string :=
  match v with
  | VUndefined => "undefined"
  | VNull => "null"
  | VBool true => "true"
  | VBool false => "false"
  | VNum x => Number_toString x
  | VStr s => s
  | VObj repr => repr
  end.

(** An [Error] object; only its [message] is ever read. *)
Record Error : Type := { message : string }.

(** [new Error(m)]: the message is [ToString m], and stays empty when
    [m] is [undefined]. *)
Definition new_Error `{Runtime} (m : value) : Error :=
  match m with
  | VUndefined => {| message := "" |}
  | _ => {| message := ToString m |}
  end.

(** Reading a property of an options object: an absent key reads as
    [undefined]. *)
Definition get (o : gmap string value) (k : string) : value :=
  default VUndefined (o !! k).

End JS.

(** ** The records exchanged with the server (README, API documentation) *)

Module Damage.
Record t : Type := {
  damage_type : string;
  severity : JS.value;
  confidence : float;
  affected_part : JS.value;
  bbox_x : float;
  bbox_y : float;
  bbox_width : float;
  bbox_height : float
}.
End Damage.

Module Detection.
Record t : Type := {
  detection_id : float;
  damages_detected : list Damage.t;
  total_damages : float;
  processing_time : JS.value
}.
End Detection.

Module LineItem.
Record t : Type := {
  damage_type : string;
  severity : JS.value;
  parts_cost : float;
  labor_hours : float;
  labor_cost : float;
  paint_cost : float;
  subtotal : float
}.
End LineItem.

Module Estimation.
Record t : Type := {
  detection_id : float;
  parts_cost : float;
  labor_cost : float;
  paint_cost : float;
  markup : float;
  total_cost : float;
  estimated_labor_hours : float;
  labor_rate : float;
  markup_percentage : float;
  damage_items : list LineItem.t
}.
End Estimation.

(** ** [services/api.js] *)

Module Api.
Import JS.

(** The body of the estimation request, the object literal built by
    [createEstimation]. *)
Module Payload.
Record t : Type := {
  detection_id : value;
  include_paint : bool;
  labor_rate_override : value;
  markup_override : value
}.
End Payload.

(** A response body. *)
Inductive body : Type :=
| BNull
| BText (s : string)
| BJson (fields : gmap string value)
| BDetection (d : Detection.t)
| BEstimation (e : Estimation.t).

Record Response : Type := { status : nat; data : body }.

(** The error axios rejects with: the response when the server answered
    with an error status, whether a request object exists, and the
    error's own message. *)
Module AxiosError.
Record t : Type := {
  response : option Response;
  request : bool;
  message : value
}.
End AxiosError.

Inductive form_value : Type :=
| FormFile (f : File)
| FormText (s : string).

Inductive content : Type :=
| NoContent
| Json (p : Payload.t)
| FormData (fields : list (string * form_value))
| Params (ps : list (string * value)).

Inductive method : Type := GET | POST.

Record request : Type := { verb : method; url : string; sent : content }.

(** How the transport settles one request, before the interceptors. *)
Definition transport : Type := request → Response + AxiosError.t.

(** What a call does besides settling: the requests it sends and the
    lines it writes with [console.error]. *)
Inductive event : Type :=
| Sent (r : request)
| ConsoleError (label : string) (e : Error).

Inductive settled (A : Type) : Type :=
| Fulfilled (a : A)
| Rejected (e : Error).
Arguments Fulfilled {A} a.
Arguments Rejected {A} e.

(** An asynchronous computation run to completion. *)
Definition Async (A : Type) : Type := list event * settled A.

Definition ret {A} (a : A) : Async A := ([], Fulfilled a).

Definition throw {A} (e : Error) : Async A := ([], Rejected e).

Definition bind {A B} (m : Async A) (k : A → Async B) : Async B :=
  match m with
  | (evs, Fulfilled a) => let '(evs', r) := k a in (evs ++ evs', r)
  | (evs, Rejected e) => (evs, Rejected e)
  end.

(** [try { m } catch (error) { handler error }] *)
Definition try_catch {A} (m : Async A) (handler : Error → Async A) : Async A :=
  match m with
  | (evs, Fulfilled a) => (evs, Fulfilled a)
  | (evs, Rejected e) => let '(evs', r) := handler e in (evs ++ evs', r)
  end.

Definition console_error (label : string) (e : Error) : Async unit :=
  ([ConsoleError label e], Fulfilled tt).

Notation "'let*' x := m 'in' k" := (bind m (fun x => k))
  (at level 10, x name, m at level 100, k at level 200, only parsing).

Definition events {A} (m : Async A) : list event := fst m.
Definition outcome {A} (m : Async A) : settled A := snd m.

(** The requests a computation sent, in order. *)
Fixpoint requests_of (evs : list event) : list request :=
  match evs with
  | [] => []
  | Sent r :: evs => r :: requests_of evs
  | ConsoleError _ _ :: evs => requests_of evs
  end.

Section WithRuntime.
Context `{Runtime}.

(** [error.response.data?.detail] and [error.response.data?.message]:
    [undefined] when the body is nullish, and when it is a string or one
    of the result records, which have no such member. *)
Definition optional_get (d : body) (k : string) : value :=
  match d with
  | BJson fields => get fields k
  | _ => VUndefined
  end.

(** The rejection handler of [api.interceptors.response]. *)
Definition response_rejected (error : AxiosError.t) : settled Response :=
  match AxiosError.response error with
  | Some response =>
      let message :=
        js_or (optional_get (data response) "detail")
          (js_or (optional_get (data response) "message")
             (VStr "Server error occurred")) in
      Rejected (new_Error message)
  | None =>
      if AxiosError.request error then
        Rejected (new_Error
          (VStr "Cannot connect to server. Please ensure the backend is running."))
      else
        Rejected (new_Error
          (js_or (AxiosError.message error) (VStr "An unexpected error occurred")))
  end.

(** A request through the [api] instance: the fulfilment handler returns
    the response unchanged, the rejection handler is [response_rejected]. *)
Definition api_request (net : transport) (r : request) : Async Response :=
  ([Sent r],
   match net r with
   | inl response => Fulfilled response
   | inr error => response_rejected error
   end).

Definition api_post (net : transport) (u : string) (c : content) : Async Response :=
  api_request net {| verb := POST; url := u; sent := c |}.

Definition api_get (net : transport) (u : string) (c : content) : Async Response :=
  api_request net {| verb := GET; url := u; sent := c |}.

(** A parameter with a default value: the default applies to
    [undefined] only. *)
Definition with_default (v d : value) : value :=
  match v with VUndefined => d | _ => v end.

Definition detectDamage (net : transport) (imageFile : File)
    (confidenceThreshold : value) : Async body :=
  let confidenceThreshold := with_default confidenceThreshold (VNum 0.25) in
  try_catch
    (let formData :=
       [("file", FormFile imageFile);
        ("confidence_threshold", FormText (ToString confidenceThreshold));
        ("detect_severity", FormText (ToString (VBool true)))] in
     let* response := api_post net "/detections/" (FormData formData) in
     ret (data response))
    (fun error =>
       let* _ := console_error "Detection error:" error in
       throw error).

(** The object literal of [createEstimation]. *)
Definition payload (detectionId : value) (options : gmap string value) : Payload.t :=
  {| Payload.detection_id := detectionId;
     Payload.include_paint := strict_ne (get options "includePaint") (VBool false);
     Payload.labor_rate_override := js_or (get options "laborRate") VNull;
     Payload.markup_override := js_or (get options "markup") VNull |}.

(** [createEstimation]; the second argument is [None] when the caller
    omits it, and the parameter then defaults to the empty object. *)
Definition createEstimation (net : transport) (detectionId : value)
    (options : option (gmap string value)) : Async body :=
  let options := default ∅ options in
  try_catch
    (let* response := api_post net "/estimations/" (Json (payload detectionId options)) in
     ret (data response))
    (fun error =>
       let* _ := console_error "Estimation error:" error in
       throw error).

Definition getDetection (net : transport) (detectionId : value) : Async body :=
  try_catch
    (let* response :=
       api_get net ("/detections/" +:+ ToString detectionId) NoContent in
     ret (data response))
    (fun error =>
       let* _ := console_error "Get detection error:" error in
       throw error).

Definition getEstimation (net : transport) (detectionId : value) : Async body :=
  try_catch
    (let* response :=
       api_get net ("/estimations/detection/" +:+ ToString detectionId) NoContent in
     ret (data response))
    (fun error =>
       let* _ := console_error "Get estimation error:" error in
       throw error).

Definition getEstimationSummary (net : transport) (detectionId : value) : Async body :=
  try_catch
    (let* response :=
       api_get net ("/estimations/summary/" +:+ ToString detectionId) NoContent in
     ret (data response))
    (fun error =>
       let* _ := console_error "Get summary error:" error in
       throw error).

Definition listDetections (net : transport) (page pageSize : value) : Async body :=
  let page := with_default page (VNum 1) in
  let pageSize := with_default pageSize (VNum 10) in
  try_catch
    (let* response :=
       api_get net "/detections/" (Params [("page", page); ("page_size", pageSize)]) in
     ret (data response))
    (fun error =>
       let* _ := console_error "List detections error:" error in
       throw error).

End WithRuntime.
End Api.

(** ** [App.jsx]: the application state and its handlers *)

Module App.
Import JS Api.

(** The banner object kept in the [error] state. *)
Module Banner.
Record t : Type := { type : string; message : string }.
End Banner.

(** The seven [useState] cells.  A cell initialised with [null] holds
    [None] (or [BNull] for a response body) until it is set. *)
Record state : Type := {
  uploadedImage : option File;
  imagePreview : option string;
  detectionData : body;
  costEstimation : body;
  loading : bool;
  error : option Banner.t;
  step : float
}.

Definition initial : state :=
  {| uploadedImage := None; imagePreview := None; detectionData := BNull;
     costEstimation := BNull; loading := false; error := None; step := 1 |}.

(** The setters returned by [useState]. *)
Definition setUploadedImage (v : option File) (st : state) : state :=
  {| uploadedImage := v; imagePreview := imagePreview st;
     detectionData := detectionData st; costEstimation := costEstimation st;
     loading := loading st; error := error st; step := step st |}.

Definition setImagePreview (v : option string) (st : state) : state :=
  {| uploadedImage := uploadedImage st; imagePreview := v;
     detectionData := detectionData st; costEstimation := costEstimation st;
     loading := loading st; error := error st; step := step st |}.

Definition setDetectionData (v : body) (st : state) : state :=
  {| uploadedImage := uploadedImage st; imagePreview := imagePreview st;
     detectionData := v; costEstimation := costEstimation st;
     loading := loading st; error := error st; step := step st |}.

Definition setCostEstimation (v : body) (st : state) : state :=
  {| uploadedImage := uploadedImage st; imagePreview := imagePreview st;
     detectionData := detectionData st; costEstimation := v;
     loading := loading st; error := error st; step := step st |}.

Definition setLoading (v : bool) (st : state) : state :=
  {| uploadedImage := uploadedImage st; imagePreview := imagePreview st;
     detectionData := detectionData st; costEstimation := costEstimation st;
     loading := v; error := error st; step := step st |}.

Definition setError (v : option Banner.t) (st : state) : state :=
  {| uploadedImage := uploadedImage st; imagePreview := imagePreview st;
     detectionData := detectionData st; costEstimation := costEstimation st;
     loading := loading st; error := v; step := step st |}.

Definition setStep (v : float) (st : state) : state :=
  {| uploadedImage := uploadedImage st; imagePreview := imagePreview st;
     detectionData := detectionData st; costEstimation := costEstimation st;
     loading := loading st; error := error st; step := v |}.

(** Truthiness of a state cell that holds a response body. *)
Definition truthy (d : body) : bool :=
  match d with
  | BNull => false
  | BText s => negb (String.eqb s "")
  | _ => true
  end.

(** [detectionData.total_damages] and [detectionData.detection_id] *)
Definition total_damages (d : body) : value :=
  match d with
  | BDetection r => VNum (Detection.total_damages r)
  | BEstimation _ => VUndefined
  | d => optional_get d "total_damages"
  end.

Definition detection_id (d : body) : value :=
  match d with
  | BDetection r => VNum (Detection.detection_id r)
  | BEstimation e => VNum (Estimation.detection_id e)
  | d => optional_get d "detection_id"
  end.

(** [err.message || fallback] on the message of a caught [Error]. *)
Definition message_or (err : Error) (fallback : string) : string :=
  if String.eqb (JS.message err) "" then fallback else JS.message err.

Section WithRuntime.
Context `{Runtime}.

Definition handleImageUpload (file : File) (st : state) : state :=
  let st := setUploadedImage (Some file) st in
  let st := setImagePreview (Some (URL_createObjectURL file)) st in
  let st := setDetectionData BNull st in
  let st := setCostEstimation BNull st in
  let st := setError None st in
  setStep 1 st.

(** [handleEstimate]: the events of the call and the state once it has
    settled. *)
Definition handleEstimate (net : transport) (st : state) : list event * state :=
  if negb (truthy (detectionData st)) then ([], st)
  else if strict_eq (total_damages (detectionData st)) (VNum 0) then ([], st)
  else
    let id := detection_id (detectionData st) in
    let st := setLoading true st in
    let st := setError None st in
    let call := createEstimation net id None in
    let st :=
      match outcome call with
      | Fulfilled result =>
          let st := setCostEstimation result st in
          setStep 3 st
      | Rejected err =>
          setError (Some {| Banner.type := "error";
                            Banner.message :=
                              message_or err "Failed to estimate costs. Please try again." |}) st
      end in
    (events call, setLoading false st).

End WithRuntime.
End App.

(** ** [components/DetectionResults.jsx] *)

Module DetectionResults.
Import JS.

(** The fixed severity set. *)
Definition severities : list string := ["minor"; "moderate"; "severe"].

(** The own properties of the [badges] literal. *)
Definition badges : gmap string value :=
  <["minor" := VStr "badge-success"]>
    (<["moderate" := VStr "badge-warning"]>
       (<["severe" := VStr "badge-danger"]> ∅)).

(** The members every object literal inherits from [Object.prototype]. *)
Definition Object_prototype : list string :=
  ["constructor"; "hasOwnProperty"; "isPrototypeOf"; "propertyIsEnumerable";
   "toLocaleString"; "toString"; "valueOf"; "__proto__";
   "__defineGetter__"; "__defineSetter__"; "__lookupGetter__"; "__lookupSetter__"].

(** [o[k]] on an object literal: the own property, else the inherited
    member, else [undefined].  The inherited [__proto__] is the prototype
    itself, [constructor] is the function [Object], and every other
    member is the function of its own name; a function is seen through
    its source text, in the wording of V8. *)
Definition member (o : gmap string value) (k : string) : value :=
  match o !! k with
  | Some v => v
  | None =>
      if bool_decide (k ∈ Object_prototype) then
        if String.eqb k "__proto__" then VObj "[object Object]"
        else if String.eqb k "constructor"
        then VObj "function Object() { [native code] }"
        else VObj ("function " +:+ k +:+ "() { [native code] }")
      else VUndefined
  end.

(** One recorded division: the dividend and the array length it was
    divided by. *)
Record division : Type := { dividend : float; divisor : nat }.

(** An array length as a number, exact for the length of every array
    (an array has fewer than 2^32 elements). *)
Definition Number_of_length (n : nat) : float :=
  PrimFloat.of_uint63 (Uint63.of_Z (Z.of_nat n)).

(** [d.replace(/_/g, ' ').replace(/-/g, ' ')] *)
Fixpoint replace (c r : Ascii.ascii) (s : string) : string :=
  match s with
  | EmptyString => EmptyString
  | String a s => String (if Ascii.eqb a c then r else a) (replace c r s)
  end.

Definition title (damage_type : string) : string :=
  replace "-"%char " "%char (replace "_"%char " "%char damage_type).

(** What one entry of the damages list shows. *)
Record row : Type := {
  row_icon : string;
  row_title : string;
  row_badge : string;
  row_severity : value;
  row_confidence : string;
  row_bar : string
}.

(** What the component renders: the two summary cells, the list (absent
    when there is no damage) and the estimation button, present or not,
    with its [disabled] flag. *)
Record view : Type := {
  view_total : float;
  view_confidence : string;
  view_rows : option (list row);
  view_button : option bool
}.

Section WithRuntime.
Context `{Runtime}.

Definition getSeverityBadge (severity : value) : value :=
  js_or (member badges (ToString severity)) (VStr "badge-warning").

Definition getSeverityIcon (severity : value) : string :=
  if strict_eq severity (VStr "severe") then "🔴"
  else if strict_eq severity (VStr "moderate") then "🟡"
  else "🟢".

(** The Confidence cell, with the divisions its evaluation performs. *)
Definition confidenceCell (damages_detected : list Damage.t) : string * list division :=
  if (0 <? length damages_detected)%nat then
    let total :=
      fold_left (fun acc d => (acc + Damage.confidence d)%float) damages_detected 0%float in
    let average := (total / Number_of_length (length damages_detected))%float in
    (Number_toFixed (average * 100)%float 0 +:+ "%",
     [{| dividend := total; divisor := length damages_detected |}])
  else ("N/A", []).

Definition damageRow (damage : Damage.t) : row :=
  {| row_icon := getSeverityIcon (Damage.severity damage);
     row_title := title (Damage.damage_type damage);
     row_badge := "badge " +:+ ToString (getSeverityBadge (Damage.severity damage));
     row_severity := Damage.severity damage;
     row_confidence := Number_toFixed (Damage.confidence damage * 100)%float 1 +:+ "%";
     row_bar :=
       if (0.7 <? Damage.confidence damage)%float then "bg-success-500"
       else if (0.4 <? Damage.confidence damage)%float then "bg-warning-500"
       else "bg-danger-500" |}.

(** [!hasEstimation && total_damages > 0 && <button disabled={loading}>] *)
Definition estimateButton (total_damages : float) (hasEstimation loading : bool) : option bool :=
  if negb hasEstimation && (0 <? total_damages)%float then Some loading else None.

Definition DetectionResults (data : Detection.t) (hasEstimation loading : bool) : view :=
  let damages_detected := Detection.damages_detected data in
  let total_damages := Detection.total_damages data in
  {| view_total := total_damages;
     view_confidence := fst (confidenceCell damages_detected);
     view_rows :=
       if (0 <? length damages_detected)%nat
       then Some (map damageRow damages_detected) else None;
     view_button := estimateButton total_damages hasEstimation loading |}.

End WithRuntime.
End DetectionResults.

(** ** [components/CostEstimation.jsx] *)

Module CostEstimation.
Import JS.

(** What a [CostRow] shows. *)
Record cost_row : Type := { row_label : string; row_amount : string }.

(** What one entry of the itemized list shows. *)
Record item : Type := {
  item_title : string;
  item_badge : string;
  item_severity : value;
  item_subtotal : string;
  item_parts : string;
  item_labor : string;
  item_paint : string
}.

(** What the component renders: the total in the header, the four rows
    of the breakdown, the total below them and the itemized list. *)
Record view : Type := {
  view_header_total : string;
  view_breakdown : list cost_row;
  view_total : string;
  view_items : list item
}.

Section WithRuntime.
Context `{Runtime}.

Definition formatCurrency (amount : float) : string := Intl_formatUSD amount.

Definition CostRow (label : string) (amount : float) : cost_row :=
  {| row_label := label; row_amount := formatCurrency amount |}.

(** The class of the severity badge of an item. *)
Definition itemBadge (severity : value) : string :=
  if strict_eq severity (VStr "severe") then "badge-danger"
  else if strict_eq severity (VStr "moderate") then "badge-warning"
  else "badge-success".

Definition itemEntry (it : LineItem.t) : item :=
  {| item_title := DetectionResults.title (LineItem.damage_type it);
     item_badge := "badge " +:+ itemBadge (LineItem.severity it) +:+ " text-xs mt-1";
     item_severity := LineItem.severity it;
     item_subtotal := formatCurrency (LineItem.subtotal it);
     item_parts := formatCurrency (LineItem.parts_cost it);
     item_labor := formatCurrency (LineItem.labor_cost it);
     item_paint := formatCurrency (LineItem.paint_cost it) |}.

Definition CostEstimation (data : Estimation.t) : view :=
  let parts_cost := Estimation.parts_cost data in
  let labor_cost := Estimation.labor_cost data in
  let paint_cost := Estimation.paint_cost data in
  let markup := Estimation.markup data in
  let total_cost := Estimation.total_cost data in
  let estimated_labor_hours := Estimation.estimated_labor_hours data in
  let labor_rate := Estimation.labor_rate data in
  let markup_percentage := Estimation.markup_percentage data in
  let damage_items := Estimation.damage_items data in
  {| view_header_total := formatCurrency total_cost;
     view_breakdown :=
       [CostRow "Parts" parts_cost;
        CostRow ("Labor (" +:+ Number_toString estimated_labor_hours +:+ "hrs @ "
                 +:+ formatCurrency labor_rate +:+ "/hr)") labor_cost;
        CostRow "Paint & Finish" paint_cost;
        CostRow ("Markup (" +:+ Number_toString markup_percentage +:+ "%)") markup];
     view_total := formatCurrency total_cost;
     view_items := map itemEntry damage_items |}.

End WithRuntime.
End CostEstimation.

(** ** The estimation engine

    The engine runs on the server and its code is not part of the client
    sources; this module follows sections 3 to 7 of the specification.
    Amounts are exact rationals. *)

Module Engine.
Local Open Scope Q_scope.

(** Modelled from the spec: the closed enumeration of the 11 damage
    types (section 3 and section 9); the engine's data model is missing
    from the sources. *)
Inductive DamageType : Type :=
| damaged_head_light | damaged_hood | damaged_trunk | damaged_window
| damaged_windscreen | damaged_bumper | damaged_door | damaged_fender
| damaged_mirror_glass | dent_or_scratch | missing_grille.

(** Modelled from the spec: the three severities (section 3); the
    engine's data model is missing from the sources. *)
Inductive Severity : Type := minor | moderate | severe.

Module Instance.
(** Modelled from the spec: [DamageInstance] (section 3), with an
    optional severity; the engine's data model is missing from the
    sources. *)
Record t : Type := {
  damage_type : DamageType;
  severity : option Severity;
  confidence : Q;
  bbox : Q * Q * Q * Q;
  affected_part : option string
}.
End Instance.

Module Rule.
(** Modelled from the spec: [CostRule] (section 3); the cost rule table
    is missing from the sources. *)
Record t : Type := { parts_cost : Q; labor_hours : Q; paint_cost : Q }.
End Rule.

Module Request.
(** Modelled from the spec: [EstimationRequest] (section 3); the
    engine's request type is missing from the sources. *)
Record t : Type := {
  detection_id : nat;
  include_paint : bool;
  labor_rate_override : option Q;
  markup_override : option Q
}.
End Request.

Module Item.
(** Modelled from the spec: [LineItem] (section 3); the line-item
    calculator is missing from the sources. *)
Record t : Type := {
  damage_type : DamageType;
  severity : Severity;
  parts_cost : Q;
  labor_hours : Q;
  labor_cost : Q;
  paint_cost : Q;
  subtotal : Q
}.
End Item.

Module Estimate.
(** Modelled from the spec: [Estimation] (section 3); the record builder
    is missing from the sources. *)
Record t : Type := {
  detection_id : nat;
  parts_cost : Q;
  labor_cost : Q;
  paint_cost : Q;
  markup : Q;
  markup_percentage : Q;
  labor_rate : Q;
  estimated_labor_hours : Q;
  total_cost : Q;
  damage_items : list Item.t;
  created_at : nat
}.
End Estimate.

(** Modelled from the spec: the error taxonomy of section 7; the
    engine's errors are missing from the sources. *)
Inductive Error : Type :=
| DetectionNotFound (id : nat)
| InvalidOverride (field : string) (value : Q)
| CostRuleMissing (damage_type : DamageType) (severity : Severity)
| PersistenceFailure.

(** Modelled from the spec: the configuration consumed at startup
    (section 6): the content of the cost rule table, the two system
    defaults, and the classifier with its deployment thresholds, whose
    combination of confidence and area the spec leaves to the
    deployment; the configuration is missing from the sources. *)
Record Config : Type := {
  table : DamageType → Severity → option Rule.t;
  default_labor_rate : Q;
  default_markup_percentage : Q;
  classify : Instance.t → Severity
}.

(** Modelled from the spec: the storage collaborator (sections 1 and 5):
    the detections by identifier and the history of estimations, to
    which each estimation is added; the storage is missing from the
    sources. *)
Record Store : Type := {
  detections : gmap nat (list Instance.t);
  estimations : list Estimate.t
}.

(** Modelled from the spec: the sum of a sequence of amounts (section
    4.5); the aggregator is missing from the sources. *)
Fixpoint total (l : list Q) : Q :=
  match l with
  | [] => 0
  | x :: l => x + total l
  end.

(** Modelled from the spec: section 4.1, a severity the detector already
    attached is used verbatim, else the classifier decides; the
    classifier is missing from the sources. *)
Definition resolve_severity (cfg : Config) (d : Instance.t) : Severity :=
  match Instance.severity d with
  | Some s => s
  | None => classify cfg d
  end.

(** Modelled from the spec: section 4.2, [lookup] fails with
    [CostRuleMissing] when the pair has no entry; the cost rule table is
    missing from the sources. *)
Definition lookup (cfg : Config) (t : DamageType) (s : Severity) : Error + Rule.t :=
  match table cfg t s with
  | Some rule => inr rule
  | None => inl (CostRuleMissing t s)
  end.

(** Modelled from the spec: section 4.3, an explicit override takes
    precedence over the system default; the labor rate must be strictly
    positive and the markup percentage in [0, 100], else
    [InvalidOverride] names the field and the value; the override
    resolver is missing from the sources. *)
Definition resolve_overrides (cfg : Config) (req : Request.t) : Error + Q * Q :=
  match Request.labor_rate_override req with
  | Some rate =>
      if Qle_bool rate 0 then inl (InvalidOverride "labor_rate" rate)
      else
        match Request.markup_override req with
        | Some pct =>
            if Qle_bool 0 pct && Qle_bool pct 100 then inr (rate, pct)
            else inl (InvalidOverride "markup_percentage" pct)
        | None => inr (rate, default_markup_percentage cfg)
        end
  | None =>
      match Request.markup_override req with
      | Some pct =>
          if Qle_bool 0 pct && Qle_bool pct 100 then inr (default_labor_rate cfg, pct)
          else inl (InvalidOverride "markup_percentage" pct)
      | None => inr (default_labor_rate cfg, default_markup_percentage cfg)
      end
  end.

(** Modelled from the spec: section 4.4, the cost breakdown of one
    damage instance; the line-item calculator is missing from the
    sources. *)
Definition line_item (d : Instance.t) (s : Severity) (rule : Rule.t)
    (labor_rate : Q) (include_paint : bool) : Item.t :=
  let labor_cost := Rule.labor_hours rule * labor_rate in
  let paint_cost := if include_paint then Rule.paint_cost rule else 0 in
  let parts_cost := Rule.parts_cost rule in
  {| Item.damage_type := Instance.damage_type d;
     Item.severity := s;
     Item.parts_cost := parts_cost;
     Item.labor_hours := Rule.labor_hours rule;
     Item.labor_cost := labor_cost;
     Item.paint_cost := paint_cost;
     Item.subtotal := parts_cost + labor_cost + paint_cost |}.

(** Modelled from the spec: the two invariants of a line item (section
    3): it adds up, and its labor cost is its hours at the labor rate of
    the estimation; the line-item calculator is missing from the
    sources. *)
Definition well_formed (labor_rate : Q) (it : Item.t) : Prop :=
  Item.subtotal it == Item.parts_cost it + Item.labor_cost it + Item.paint_cost it
  ∧ Item.labor_cost it == Item.labor_hours it * labor_rate.

(** Modelled from the spec: the line items of a detection in order, one
    per damage instance, or [CostRuleMissing] and no partial result
    (sections 4.2 and 8); the line-item calculator is missing from the
    sources. *)
Fixpoint line_items (cfg : Config) (labor_rate : Q) (include_paint : bool)
    (ds : list Instance.t) : Error + list Item.t :=
  match ds with
  | [] => inr []
  | d :: ds =>
      let s := resolve_severity cfg d in
      match lookup cfg (Instance.damage_type d) s with
      | inl e => inl e
      | inr rule =>
          match line_items cfg labor_rate include_paint ds with
          | inl e => inl e
          | inr items => inr (line_item d s rule labor_rate include_paint :: items)
          end
      end
  end.

(** Modelled from the spec: sections 4.5 and 4.6, the totals over the
    line items, the markup on their sum, the total cost, and the record
    assembled from them with the request metadata and the creation
    timestamp; the aggregator and the record builder are missing from
    the sources. *)
Definition build (detection_id : nat) (items : list Item.t)
    (labor_rate markup_percentage : Q) (now : nat) : Estimate.t :=
  let parts_total := total (map Item.parts_cost items) in
  let labor_total := total (map Item.labor_cost items) in
  let paint_total := total (map Item.paint_cost items) in
  let hours_total := total (map Item.labor_hours items) in
  let markup := (parts_total + labor_total + paint_total) * markup_percentage / 100 in
  {| Estimate.detection_id := detection_id;
     Estimate.parts_cost := parts_total;
     Estimate.labor_cost := labor_total;
     Estimate.paint_cost := paint_total;
     Estimate.markup := markup;
     Estimate.markup_percentage := markup_percentage;
     Estimate.labor_rate := labor_rate;
     Estimate.estimated_labor_hours := hours_total;
     Estimate.total_cost := parts_total + labor_total + paint_total + markup;
     Estimate.damage_items := items;
     Estimate.created_at := now |}.

(** Modelled from the spec: the storage collaborator records a new
    estimation after the earlier ones of the history (sections 3 and 5);
    the storage is missing from the sources. *)
Definition persist (e : Estimate.t) (st : Store) : Store :=
  {| detections := detections st; estimations := estimations st ++ [e] |}.

(** Modelled from the spec: [estimate] (section 6): the overrides are
    validated before anything else, the detection is resolved before
    estimation begins, the line items are computed, aggregated and the
    record is built and persisted; an error leaves the store as it was;
    the engine is missing from the sources. *)
Definition estimate (cfg : Config) (now : nat) (req : Request.t) (st : Store)
    : (Error + Estimate.t) * Store :=
  match resolve_overrides cfg req with
  | inl e => (inl e, st)
  | inr (labor_rate, markup_percentage) =>
      match detections st !! Request.detection_id req with
      | None => (inl (DetectionNotFound (Request.detection_id req)), st)
      | Some damages =>
          match line_items cfg labor_rate (Request.include_paint req) damages with
          | inl e => (inl e, st)
          | inr items =>
              let e := build (Request.detection_id req) items labor_rate
                         markup_percentage now in
              (inr e, persist e st)
          end
      end
  end.

End Engine.

(** ** The six operations of [services/api.js] as one family *)

Module Operations.
Import JS Api.

Inductive operation : Type :=
| DetectDamage (imageFile : File) (confidenceThreshold : value)
| CreateEstimation (detectionId : value) (options : option (gmap string value))
| GetDetection (detectionId : value)
| GetEstimation (detectionId : value)
| GetEstimationSummary (detectionId : value)
| ListDetections (page pageSize : value).

(** The label each operation passes to [console.error]. *)
Definition label (op : operation) : string :=
  match op with
  | DetectDamage _ _ => "Detection error:"
  | CreateEstimation _ _ => "Estimation error:"
  | GetDetection _ => "Get detection error:"
  | GetEstimation _ => "Get estimation error:"
  | GetEstimationSummary _ => "Get summary error:"
  | ListDetections _ _ => "List detections error:"
  end.

Section WithRuntime.
Context `{Runtime}.

Definition call (net : transport) (op : operation) : Async body :=
  match op with
  | DetectDamage imageFile confidenceThreshold =>
      detectDamage net imageFile confidenceThreshold
  | CreateEstimation detectionId options => createEstimation net detectionId options
  | GetDetection detectionId => getDetection net detectionId
  | GetEstimation detectionId => getEstimation net detectionId
  | GetEstimationSummary detectionId => getEstimationSummary net detectionId
  | ListDetections page pageSize => listDetections net page pageSize
  end.

(** The request an operation sends. *)
Definition request_of (op : operation) : request :=
  match op with
  | DetectDamage imageFile confidenceThreshold =>
      {| verb := POST; url := "/detections/";
         sent := FormData
           [("file", FormFile imageFile);
            ("confidence_threshold",
             FormText (ToString (with_default confidenceThreshold (VNum 0.25))));
            ("detect_severity", FormText "true")] |}
  | CreateEstimation detectionId options =>
      {| verb := POST; url := "/estimations/";
         sent := Json (payload detectionId (default ∅ options)) |}
  | GetDetection detectionId =>
      {| verb := GET; url := "/detections/" +:+ ToString detectionId; sent := NoContent |}
  | GetEstimation detectionId =>
      {| verb := GET; url := "/estimations/detection/" +:+ ToString detectionId;
         sent := NoContent |}
  | GetEstimationSummary detectionId =>
      {| verb := GET; url := "/estimations/summary/" +:+ ToString detectionId;
         sent := NoContent |}
  | ListDetections page pageSize =>
      {| verb := GET; url := "/detections/";
         sent := Params [("page", with_default page (VNum 1));
                         ("page_size", with_default pageSize (VNum 10))] |}
  end.

(** The message of the [Error] the response interceptor throws for a
    failed request. *)
Definition thrown_message (error : AxiosError.t) : string :=
  match AxiosError.response error with
  | Some response =>
      ToString
        (js_or (optional_get (data response) "detail")
           (js_or (optional_get (data response) "message")
              (VStr "Server error occurred")))
  | None =>
      if AxiosError.request error
      then "Cannot connect to server. Please ensure the backend is running."
      else ToString (js_or (AxiosError.message error) (VStr "An unexpected error occurred"))
  end.

End WithRuntime.
End Operations.

(** ** [components/ImageUpload.jsx] *)

Module ImageUpload.
Import JS.

(** [onDrop]: the first accepted file is handed to [onImageUpload], and
    a drop that accepted no file does nothing. *)
Definition onDrop {S : Type} (onImageUpload : File → S → S)
    (acceptedFiles : list File) (st : S) : S :=
  if (0 <? length acceptedFiles)%nat then
    match acceptedFiles with
    | file :: _ => onImageUpload file st
    | [] => st
    end
  else st.

End ImageUpload.

(** ** [App.jsx]: the other handlers and what the application renders *)

Module Flow.
Import JS Api App.

(** The message of the [TypeError] the engine throws when a property is
    read from [null]; its wording is the engine's own. *)
Class Faults : Type := { null_read_message : string → string }.

(** What the application renders: the three lit steps of the progress
    bar, the banner (its border class, its text class and its message),
    the spinner, and either the upload zone or the preview with its
    buttons ([Some disabled] when rendered), the detection results and
    the cost estimation. *)
Record screen : Type := {
  indicator : bool * bool * bool;
  banner : option (string * string * string);
  spinner : bool;
  upload_zone : bool;
  preview : option (option string);
  reset_button : bool;
  detect_button : option bool;
  results : option DetectionResults.view;
  estimation : option CostEstimation.view
}.

(** What the user can do. *)
Inductive action : Type :=
| Drop (acceptedFiles : list File)
| ClickReset
| ClickDetect
| ClickEstimate.

(** A button that is rendered and not disabled. *)
Definition clickable (button : option bool) : bool :=
  match button with
  | Some disabled => negb disabled
  | None => false
  end.

(** The actions a screen offers: dropping files on the upload zone, and
    clicking the buttons that are rendered and not disabled. *)
Definition offered (s : screen) (a : action) : bool :=
  match a with
  | Drop _ => upload_zone s
  | ClickReset => reset_button s
  | ClickDetect => clickable (detect_button s)
  | ClickEstimate =>
      match results s with
      | Some v => clickable (DetectionResults.view_button v)
      | None => false
      end
  end.

(** A server that answers an upload with a detection record and an
    estimation request with an estimation record. *)
Definition answers_in_kind (net : transport) : Prop :=
  ∀ r response, net r = inl response →
    match sent r with
    | FormData _ => ∃ d, data response = BDetection d
    | Json _ => ∃ e, data response = BEstimation e
    | _ => True
    end.

(** The states in which the progress bar, the detection and the
    estimation agree: no call is in flight, and either nothing is
    uploaded and the application is in its initial state, or the step is
    1 with no detection, 2 with a detection and no estimation, or 3 with
    the estimation of a detection that counts some damage. *)
Definition consistent (st : state) : Prop :=
  loading st = false
  ∧ match uploadedImage st with
    | None => st = initial
    | Some _ =>
        (step st = 1%float ∧ detectionData st = BNull ∧ costEstimation st = BNull)
        ∨ (step st = 2%float
           ∧ ∃ d, detectionData st = BDetection d ∧ costEstimation st = BNull)
        ∨ (step st = 3%float
           ∧ ∃ d e, detectionData st = BDetection d ∧ costEstimation st = BEstimation e
                    ∧ (0 <? Detection.total_damages d)%float = true)
    end.

Section WithRuntime.
Context `{Runtime} `{Faults}.

(** [handleDetect]: the events of the call and the state once it has
    settled.  A [null] result is stored and the step is set before
    [result.total_damages] throws, and the [catch] block then reports
    the [TypeError]. *)
Definition handleDetect (net : transport) (st : state) : list event * state :=
  match uploadedImage st with
  | None => ([], st)
  | Some image =>
      let st := setLoading true st in
      let st := setError None st in
      let call := detectDamage net image VUndefined in
      let st :=
        match outcome call with
        | Fulfilled result =>
            let st := setDetectionData result st in
            let st := setStep 2 st in
            match result with
            | BNull =>
                let err := {| JS.message := null_read_message "total_damages" |} in
                setError
                  (Some {| Banner.type := "error";
                           Banner.message :=
                             message_or err "Failed to detect damages. Please try again." |})
                  st
            | _ =>
                if strict_eq (total_damages result) (VNum 0) then
                  setError
                    (Some {| Banner.type := "info";
                             Banner.message :=
                               "No damages detected! Your car looks great! 🎉" |})
                    st
                else st
            end
        | Rejected err =>
            setError
              (Some {| Banner.type := "error";
                       Banner.message :=
                         message_or err "Failed to detect damages. Please try again." |})
              st
        end in
      (events call, setLoading false st)
  end.

Definition handleReset (st : state) : state :=
  let st := setUploadedImage None st in
  let st := setImagePreview None st in
  let st := setDetectionData BNull st in
  let st := setCostEstimation BNull st in
  let st := setError None st in
  setStep 1 st.

(** The slot of a component that is rendered when a state cell is
    truthy: [Some None] when the cell is falsy, [Some (Some v)] when it
    holds the record the component destructures, and [None] when it
    holds any other truthy body, which this model does not render. *)
Definition slot {A V : Type} (cell : body) (record : body → option A)
    (render : A → V) : option (option V) :=
  match record cell with
  | Some a => Some (Some (render a))
  | None => if truthy cell then None else Some None
  end.

Definition as_detection (d : body) : option Detection.t :=
  match d with BDetection r => Some r | _ => None end.

Definition as_estimation (d : body) : option Estimation.t :=
  match d with BEstimation e => Some e | _ => None end.

(** The [return] of [App]. *)
Definition render (st : state) : option screen :=
  let indicator :=
    ((1 <=? step st)%float, (2 <=? step st)%float, (3 <=? step st)%float) in
  let banner :=
    match error st with
    | Some e =>
        Some (if String.eqb (Banner.type e) "error"
              then ("border-l-4 border-danger-500", "text-danger-700", Banner.message e)
              else ("border-l-4 border-primary-500", "text-primary-700", Banner.message e))
    | None => None
    end in
  match uploadedImage st with
  | None =>
      Some {| indicator := indicator; banner := banner; spinner := loading st;
              upload_zone := true; preview := None; reset_button := false;
              detect_button := None; results := None; estimation := None |}
  | Some _ =>
      match slot (detectionData st) as_detection
              (fun d => DetectionResults.DetectionResults d
                          (truthy (costEstimation st)) (loading st)),
            slot (costEstimation st) as_estimation CostEstimation.CostEstimation with
      | Some results, Some estimation =>
          Some {| indicator := indicator; banner := banner; spinner := loading st;
                  upload_zone := false; preview := Some (imagePreview st);
                  reset_button := true;
                  detect_button :=
                    if truthy (detectionData st) then None else Some (loading st);
                  results := results; estimation := estimation |}
      | _, _ => None
      end
  end.

(** The handler behind each action. *)
Definition perform (net : transport) (a : action) (st : state) : list event * state :=
  match a with
  | Drop acceptedFiles => ([], ImageUpload.onDrop handleImageUpload acceptedFiles st)
  | ClickReset => ([], handleReset st)
  | ClickDetect => handleDetect net st
  | ClickEstimate => handleEstimate net st
  end.

(** The states the user can reach from the initial one, each handler
    running to completion against a server that answers in kind. *)
Inductive reachable : state → Prop :=
| reachable_initial : reachable initial
| reachable_step st s a net :
    reachable st → render st = Some s → offered s a = true → answers_in_kind net →
    reachable (snd (perform net a st)).

End WithRuntime.
End Flow.

(** ** Concrete data for the runs below *)

Module Sample.
Import JS Api.

(** A host that prints the integer part of a number, in decimal. *)
Definition print_integer (x : float) : string :=
  match Prim2SF x with
  | S754_zero _ => "0"
  | S754_infinity s => if s then "-Infinity" else "Infinity"
  | S754_nan => "NaN"
  | S754_finite s m e =>
      let z := if (0 <=? e)%Z then (Z.pos m * 2 ^ e)%Z else (Z.pos m / 2 ^ (- e))%Z in
      (if s then "-" else "") +:+ pretty z
  end.

Definition host : Runtime := {|
  Number_toString := print_integer;
  Number_toFixed := fun x _ => print_integer x;
  URL_createObjectURL := fun f => "blob:" +:+ file_name f;
  Intl_formatUSD := fun x => "$" +:+ print_integer x
|}.

Definition photo : File :=
  {| file_name := "car.jpg"; file_type := "image/jpeg"; file_size := 204800%N |}.

(** A detection in which the detector found nothing. *)
Definition no_damage : Detection.t :=
  {| Detection.detection_id := 1; Detection.damages_detected := [];
     Detection.total_damages := 0; Detection.processing_time := VNum 1.23 |}.

(** The estimation of a detection without damage. *)
Definition nothing_to_repair : Estimation.t :=
  {| Estimation.detection_id := 1; Estimation.parts_cost := 0;
     Estimation.labor_cost := 0; Estimation.paint_cost := 0;
     Estimation.markup := 0; Estimation.total_cost := 0;
     Estimation.estimated_labor_hours := 0; Estimation.labor_rate := 75;
     Estimation.markup_percentage := 20; Estimation.damage_items := [] |}.

(** A server that answers every request with that estimation. *)
Definition obliging : transport :=
  fun _ => inl {| status := 201; data := BEstimation nothing_to_repair |}.

(** A request that failed before it was sent, with no message of its
    own. *)
Definition aborted : AxiosError.t :=
  {| AxiosError.response := None; AxiosError.request := false;
     AxiosError.message := VUndefined |}.

(** A request that was sent and never answered. *)
Definition unanswered : AxiosError.t :=
  {| AxiosError.response := None; AxiosError.request := true;
     AxiosError.message := VStr "Network Error" |}.

(** A request the server refused, with a [detail]. *)
Definition refused : AxiosError.t :=
  {| AxiosError.response :=
       Some {| status := 404;
               data := BJson (<["detail" := VStr "Detection not found"]> ∅) |};
     AxiosError.request := true;
     AxiosError.message := VStr "Request failed with status code 404" |}.

Definition failing (error : AxiosError.t) : transport := fun _ => inr error.

(** The application after a detection without damage. *)
Definition after_clean_detection : App.state :=
  {| App.uploadedImage := Some photo; App.imagePreview := Some "blob:car.jpg";
     App.detectionData := BDetection no_damage; App.costEstimation := BNull;
     App.loading := false;
     App.error := Some {| App.Banner.type := "info";
                          App.Banner.message := "No damages detected! Your car looks great! 🎉" |};
     App.step := 2 |}.

(** The engine configured with the rule of the README and the defaults
    of the README's configuration. *)
Definition config : Engine.Config :=
  {| Engine.table := fun t s =>
       match t, s with
       | Engine.damaged_bumper, Engine.moderate =>
           Some {| Engine.Rule.parts_cost := 400; Engine.Rule.labor_hours := 3;
                   Engine.Rule.paint_cost := 400 |}
       | Engine.dent_or_scratch, Engine.minor =>
           Some {| Engine.Rule.parts_cost := 50; Engine.Rule.labor_hours := 1 # 2;
                   Engine.Rule.paint_cost := 0 |}
       | _, _ => None
       end;
     Engine.default_labor_rate := 75;
     Engine.default_markup_percentage := 20;
     Engine.classify := fun _ => Engine.moderate |}.

Definition bumper : Engine.Instance.t :=
  {| Engine.Instance.damage_type := Engine.damaged_bumper;
     Engine.Instance.severity := Some Engine.moderate;
     Engine.Instance.confidence := 87 # 100;
     Engine.Instance.bbox := (45 # 100, 32 # 100, 15 # 100, 18 # 100);
     Engine.Instance.affected_part := Some "bumper" |}.

(** Detection 1 has one damaged bumper, detection 2 has no damage. *)
Definition store : Engine.Store :=
  {| Engine.detections := <[1%nat := [bumper]]> (<[2%nat := []]> ∅);
     Engine.estimations := [] |}.

Definition plain_request (id : nat) : Engine.Request.t :=
  {| Engine.Request.detection_id := id; Engine.Request.include_paint := true;
     Engine.Request.labor_rate_override := None;
     Engine.Request.markup_override := None |}.

Definition request_with_labor_rate (id : nat) (rate : Q) : Engine.Request.t :=
  {| Engine.Request.detection_id := id; Engine.Request.include_paint := true;
     Engine.Request.labor_rate_override := Some rate;
     Engine.Request.markup_override := None |}.

(** The wording of V8 for a property read from [null]. *)
Definition v8 : Flow.Faults :=
  {| Flow.null_read_message := fun k =>
       "Cannot read properties of null (reading '" +:+ k +:+ "')" |}.

Definition dent : Damage.t :=
  {| Damage.damage_type := "dent-or-scratch"; Damage.severity := VStr "minor";
     Damage.confidence := 0.87; Damage.affected_part := VStr "door";
     Damage.bbox_x := 0.45; Damage.bbox_y := 0.32;
     Damage.bbox_width := 0.15; Damage.bbox_height := 0.18 |}.

(** The same dent, hardly visible. *)
Definition faint_dent : Damage.t :=
  {| Damage.damage_type := "dent-or-scratch"; Damage.severity := VStr "minor";
     Damage.confidence := 0.35; Damage.affected_part := VStr "door";
     Damage.bbox_x := 0.45; Damage.bbox_y := 0.32;
     Damage.bbox_width := 0.15; Damage.bbox_height := 0.18 |}.

(** A detection that found one dent. *)
Definition one_dent : Detection.t :=
  {| Detection.detection_id := 1; Detection.damages_detected := [dent];
     Detection.total_damages := 1; Detection.processing_time := VNum 1.23 |}.

(** The estimation of the README. *)
Definition quote : Estimation.t :=
  {| Estimation.detection_id := 1; Estimation.parts_cost := 400;
     Estimation.labor_cost := 375; Estimation.paint_cost := 600;
     Estimation.markup := 275; Estimation.total_cost := 1650;
     Estimation.estimated_labor_hours := 5; Estimation.labor_rate := 75;
     Estimation.markup_percentage := 20; Estimation.damage_items := [] |}.

(** A server that finds one dent in every upload, quotes every
    estimation request and leaves every other request unanswered. *)
Definition garage : transport :=
  fun r =>
    match sent r with
    | FormData _ => inl {| status := 200; data := BDetection one_dent |}
    | Json _ => inl {| status := 201; data := BEstimation quote |}
    | _ => inr unanswered
    end.

(** The application with the photo uploaded, and with the dent
    detected. *)
Definition photo_on_screen : App.state :=
  {| App.uploadedImage := Some photo; App.imagePreview := Some "blob:car.jpg";
     App.detectionData := BNull; App.costEstimation := BNull;
     App.loading := false; App.error := None; App.step := 1 |}.

Definition dent_on_screen : App.state :=
  {| App.uploadedImage := Some photo; App.imagePreview := Some "blob:car.jpg";
     App.detectionData := BDetection one_dent; App.costEstimation := BNull;
     App.loading := false; App.error := None; App.step := 2 |}.

(** A server that finds no damage in any upload. *)
Definition spotless : transport :=
  fun _ => inl {| status := 200; data := BDetection no_damage |}.

(** The refusal of [refused], with another status. *)
Definition refused_otherwise : AxiosError.t :=
  {| AxiosError.response :=
       Some {| status := 500;
               data := BJson (<["detail" := VStr "Detection not found"]> ∅) |};
     AxiosError.request := true;
     AxiosError.message := VStr "Request failed with status code 500" |}.

End Sample.

(** * Properties *)

(** ** Numbers and truthiness *)

Section Numbers.
Import JS.

Lemma zero_is_falsy (z : float) :
  (z =? 0)%float = true → ToBoolean (VNum z) = false.
Proof. intros Hz. simpl. rewrite Hz. reflexivity. Qed.

(** Comparisons of a float with zero, by cases on its IEEE 754 class. *)
Ltac by_float_class x :=
  unfold PrimFloat.is_nan;
  rewrite ?FloatAxioms.ltb_spec, ?FloatAxioms.leb_spec, ?FloatAxioms.eqb_spec;
  change (Prim2SF 0) with (S754_zero false);
  destruct (Prim2SF x) as [s | s | | s m e]; try destruct s;
  unfold SFltb, SFleb, SFeqb, SFcompare;
  rewrite ?Z.compare_refl, ?Pos.compare_cont_refl;
  try discriminate; try (intros; split; reflexivity); try (intros; reflexivity).

Lemma positive_is_not_zero (x : float) :
  (0 <? x)%float = true → (x =? 0)%float = false ∧ PrimFloat.is_nan x = false.
Proof. by_float_class x. Qed.

Lemma negative_is_not_zero (x : float) :
  (x <? 0)%float = true → (x =? 0)%float = false ∧ PrimFloat.is_nan x = false.
Proof. by_float_class x. Qed.

Lemma nonnegative_is_zero_or_positive (x : float) :
  (0 <=? x)%float = true → (x =? 0)%float = false → (0 <? x)%float = true.
Proof. by_float_class x. Qed.

Lemma positive_is_truthy (x : float) :
  (0 <? x)%float = true → ToBoolean (VNum x) = true.
Proof.
  intros Hx. destruct (positive_is_not_zero x Hx) as [Hz Hn].
  simpl. rewrite Hz, Hn. reflexivity.
Qed.

Lemma negative_is_truthy (x : float) :
  (x <? 0)%float = true → ToBoolean (VNum x) = true.
Proof.
  intros Hx. destruct (negative_is_not_zero x Hx) as [Hz Hn].
  simpl. rewrite Hz, Hn. reflexivity.
Qed.

Lemma js_or_truthy (a b : value) : ToBoolean a = true → js_or a b = a.
Proof. intros Ha. unfold js_or. rewrite Ha. reflexivity. Qed.

Lemma js_or_falsy (a b : value) : ToBoolean a = false → js_or a b = b.
Proof. intros Ha. unfold js_or. rewrite Ha. reflexivity. Qed.

Lemma strict_eq_false_iff (v : value) :
  strict_eq v (VBool false) = true ↔ v = VBool false.
Proof.
  destruct v as [| | b | x | s | r]; simpl; try (split; [discriminate | discriminate]).
  destruct b; simpl; split; congruence.
Qed.

End Numbers.

(** ** [createEstimation]: the request it sends *)

Section CreateEstimation.
Import JS Api.
Context `{Runtime}.

(** Whatever the server does, [createEstimation] sends exactly one
    request: the payload, posted to [/estimations/]. *)
Lemma createEstimation_requests net detectionId options :
  requests_of (events (createEstimation net detectionId options)) =
    [{| verb := POST; url := "/estimations/";
        sent := Json (payload detectionId (default ∅ options)) |}].
Proof.
  unfold createEstimation, api_post, api_request, try_catch, bind, ret; simpl.
  destruct (net _) as [response | error]; simpl; [reflexivity |].
  destruct (response_rejected error); reflexivity.
Qed.

(** Two option objects with the same payload make the same call. *)
Lemma createEstimation_payload net detectionId o1 o2 :
  payload detectionId o1 = payload detectionId o2 →
  createEstimation net detectionId (Some o1) = createEstimation net detectionId (Some o2).
Proof. intros Heq. unfold createEstimation. simpl. rewrite Heq. reflexivity. Qed.

Lemma get_insert (o : gmap string value) k v : get (<[k := v]> o) k = v.
Proof. unfold get. rewrite lookup_insert_eq. reflexivity. Qed.

Lemma get_insert_ne (o : gmap string value) k k' v :
  k ≠ k' → get (<[k := v]> o) k' = get o k'.
Proof. intros Hne. unfold get. rewrite lookup_insert_ne by exact Hne. reflexivity. Qed.

Lemma get_delete (o : gmap string value) k : get (delete k o) k = VUndefined.
Proof. unfold get. rewrite lookup_delete_eq. reflexivity. Qed.

Lemma get_delete_ne (o : gmap string value) k k' :
  k ≠ k' → get (delete k o) k' = get o k'.
Proof. intros Hne. unfold get. rewrite lookup_delete_ne by exact Hne. reflexivity. Qed.

(** A markup strictly between 0 and 100, or 100 itself, is forwarded as
    it is, and an omitted markup is sent as [null]. *)
Lemma payload_markup_positive detectionId (options : gmap string value) (m : float) :
  get options "markup" = VNum m → (0 <? m)%float = true →
  Payload.markup_override (payload detectionId options) = VNum m.
Proof.
  intros Hget Hpos. simpl. rewrite Hget.
  apply js_or_truthy, positive_is_truthy, Hpos.
Qed.

(** Of the markups in [0, 100], those equal to 0 are the ones replaced
    by [null]. *)
Lemma payload_markup_in_range detectionId (options : gmap string value) (m : float) :
  get options "markup" = VNum m →
  (0 <=? m)%float = true → (m <=? 100)%float = true →
  Payload.markup_override (payload detectionId options)
  = if (m =? 0)%float then VNull else VNum m.
Proof.
  intros Hget Hlow _. destruct (m =? 0)%float eqn:Hz.
  - simpl. rewrite Hget. apply js_or_falsy, zero_is_falsy, Hz.
  - apply payload_markup_positive; [exact Hget |].
    apply nonnegative_is_zero_or_positive; assumption.
Qed.

Lemma payload_markup_omitted detectionId (options : gmap string value) :
  options !! "markup" = None →
  Payload.markup_override (payload detectionId options) = VNull.
Proof. intros Hnone. simpl. unfold get. rewrite Hnone. reflexivity. Qed.

(** A negative labor rate is forwarded as it is, so the server can
    refuse it. *)
Lemma payload_labor_rate_negative detectionId (options : gmap string value) (r : float) :
  get options "laborRate" = VNum r → (r <? 0)%float = true →
  Payload.labor_rate_override (payload detectionId options) = VNum r.
Proof.
  intros Hget Hneg. simpl. rewrite Hget.
  apply js_or_truthy, negative_is_truthy, Hneg.
Qed.

(** C7. For every call of [createEstimation] the request carries
    [include_paint = true] unless the caller passes [includePaint]
    strictly equal to [false]; in particular the flag is [true] when the
    option, or the whole options argument, is omitted. *)
Theorem createEstimation_include_paint net detectionId options :
  let options' := default ∅ options in
  requests_of (events (createEstimation net detectionId options)) =
    [{| verb := POST; url := "/estimations/"; sent := Json (payload detectionId options') |}]
  ∧ (Payload.include_paint (payload detectionId options') = false
     ↔ get options' "includePaint" = VBool false)
  ∧ (options' !! "includePaint" = None
     → Payload.include_paint (payload detectionId options') = true)
  ∧ Payload.include_paint (payload detectionId ∅) = true.
Proof.
  intros options'. split; [apply createEstimation_requests |].
  split; [| split].
  - simpl. unfold strict_ne. rewrite negb_false_iff. apply strict_eq_false_iff.
  - intros Hnone. simpl. unfold get. rewrite Hnone. reflexivity.
  - reflexivity.
Qed.

(** C8. A [laborRate] (respectively [markup]) option equal to 0 is sent
    as [labor_rate_override = null] (respectively [markup_override =
    null]): the payload, and the whole call, are those of a caller who
    omitted the option. *)
Theorem createEstimation_zero_override_is_omitted
    net detectionId (options : gmap string value) (z : float) :
  (z =? 0)%float = true →
  Payload.labor_rate_override (payload detectionId (<["laborRate" := VNum z]> options)) = VNull
  ∧ Payload.markup_override (payload detectionId (<["markup" := VNum z]> options)) = VNull
  ∧ payload detectionId (<["laborRate" := VNum z]> options)
    = payload detectionId (delete "laborRate" options)
  ∧ payload detectionId (<["markup" := VNum z]> options)
    = payload detectionId (delete "markup" options)
  ∧ createEstimation net detectionId (Some (<["laborRate" := VNum z]> options))
    = createEstimation net detectionId (Some (delete "laborRate" options))
  ∧ createEstimation net detectionId (Some (<["markup" := VNum z]> options))
    = createEstimation net detectionId (Some (delete "markup" options)).
Proof.
  intros Hz.
  assert (Hrate : payload detectionId (<["laborRate" := VNum z]> options)
                  = payload detectionId (delete "laborRate" options)).
  { unfold payload. rewrite get_insert, get_delete.
    rewrite !get_insert_ne, !get_delete_ne by discriminate.
    rewrite (js_or_falsy (VNum z)) by (apply zero_is_falsy, Hz). reflexivity. }
  assert (Hmarkup : payload detectionId (<["markup" := VNum z]> options)
                    = payload detectionId (delete "markup" options)).
  { unfold payload. rewrite get_insert, get_delete.
    rewrite !get_insert_ne, !get_delete_ne by discriminate.
    rewrite (js_or_falsy (VNum z)) by (apply zero_is_falsy, Hz). reflexivity. }
  repeat split.
  - simpl. rewrite get_insert. apply js_or_falsy, zero_is_falsy, Hz.
  - simpl. rewrite get_insert. apply js_or_falsy, zero_is_falsy, Hz.
  - exact Hrate.
  - exact Hmarkup.
  - apply createEstimation_payload, Hrate.
  - apply createEstimation_payload, Hmarkup.
Qed.

(** C1, at the markup 0. The option [markup: 0] lies in [0, 100], yet
    the request carries [markup_override = null], not 0: the call is the
    one of a caller who gave no markup. *)
Theorem createEstimation_markup_zero_not_forwarded net detectionId :
  let options : gmap string value := <["markup" := VNum 0]> ∅ in
  (0 <=? 0)%float = true ∧ (0 <=? 100)%float = true
  ∧ Payload.markup_override (payload detectionId options) = VNull
  ∧ Payload.markup_override (payload detectionId options) ≠ VNum 0
  ∧ createEstimation net detectionId (Some options) = createEstimation net detectionId None.
Proof.
  intros options. repeat split; try reflexivity.
  discriminate.
Qed.

(** C6, at the labor rate 0. The option [laborRate: 0] is not strictly
    positive, yet the request carries [labor_rate_override = null]: the
    call is the one of a caller who gave no labor rate, so the server
    has nothing to refuse. *)
Theorem createEstimation_labor_rate_zero_not_forwarded net detectionId :
  let options : gmap string value := <["laborRate" := VNum 0]> ∅ in
  (0 <? 0)%float = false
  ∧ Payload.labor_rate_override (payload detectionId options) = VNull
  ∧ createEstimation net detectionId (Some options) = createEstimation net detectionId None.
Proof.
  intros options. repeat split; reflexivity.
Qed.

End CreateEstimation.

(** ** Failed requests *)

Section Failures.
Import JS Api Operations.
Context `{Runtime}.

Lemma js_or_defined (a b : value) : b ≠ VUndefined → js_or a b ≠ VUndefined.
Proof.
  intros Hb. unfold js_or. destruct (ToBoolean a) eqn:Ha; [| exact Hb].
  intros ->. discriminate Ha.
Qed.

Lemma new_Error_defined (v : value) :
  v ≠ VUndefined → new_Error v = {| message := ToString v |}.
Proof. destruct v; intros Hv; try reflexivity. congruence. Qed.

(** The rejection handler never recovers: it throws, with the message
    chosen by its three branches. *)
Lemma response_rejected_throws (error : AxiosError.t) :
  response_rejected error = Rejected {| message := thrown_message error |}.
Proof.
  unfold response_rejected, thrown_message.
  destruct (AxiosError.response error) as [response |].
  - rewrite new_Error_defined; [reflexivity |].
    apply js_or_defined, js_or_defined. discriminate.
  - destruct (AxiosError.request error); [reflexivity |].
    rewrite new_Error_defined; [reflexivity |].
    apply js_or_defined. discriminate.
Qed.

(** The message when the server answered: its [detail] when that is a
    non-empty string, else its [message] when that is one, else the
    fixed text. *)
Lemma thrown_message_detail error response (s : string) :
  AxiosError.response error = Some response →
  optional_get (data response) "detail" = VStr s → s ≠ "" →
  thrown_message error = s.
Proof.
  intros Hr Hd Hs. unfold thrown_message. rewrite Hr, Hd.
  rewrite js_or_truthy; [reflexivity |].
  simpl. apply negb_true_iff, String.eqb_neq, Hs.
Qed.

Lemma thrown_message_message error response (s : string) :
  AxiosError.response error = Some response →
  ToBoolean (optional_get (data response) "detail") = false →
  optional_get (data response) "message" = VStr s → s ≠ "" →
  thrown_message error = s.
Proof.
  intros Hr Hd Hm Hs. unfold thrown_message. rewrite Hr.
  rewrite js_or_falsy by exact Hd. rewrite Hm.
  rewrite js_or_truthy; [reflexivity |].
  simpl. apply negb_true_iff, String.eqb_neq, Hs.
Qed.

Lemma thrown_message_fallback error response :
  AxiosError.response error = Some response →
  ToBoolean (optional_get (data response) "detail") = false →
  ToBoolean (optional_get (data response) "message") = false →
  thrown_message error = "Server error occurred".
Proof.
  intros Hr Hd Hm. unfold thrown_message. rewrite Hr.
  rewrite js_or_falsy by exact Hd. rewrite js_or_falsy by exact Hm. reflexivity.
Qed.

(** C4, as amended. A failed operation of [services/api.js] is never
    swallowed: it writes one line with [console.error] and rejects with
    the [Error] of the response interceptor, whose message is the
    [detail] of the response, else its [message], else ['Server error
    occurred'] when the server answered; the connection-failure text
    when the request was sent and no response arrived; and the error's
    own message, else ['An unexpected error occurred'], when no request
    was sent. *)
Theorem failed_operation_rethrows net (op : operation) (error : AxiosError.t) :
  net (request_of op) = inr error →
  call net op =
    ([Sent (request_of op); ConsoleError (label op) {| message := thrown_message error |}],
     Rejected {| message := thrown_message error |})
  ∧ thrown_message error =
      match AxiosError.response error with
      | Some response =>
          ToString
            (js_or (optional_get (data response) "detail")
               (js_or (optional_get (data response) "message")
                  (VStr "Server error occurred")))
      | None =>
          if AxiosError.request error
          then "Cannot connect to server. Please ensure the backend is running."
          else ToString (js_or (AxiosError.message error)
                           (VStr "An unexpected error occurred"))
      end.
Proof.
  intros Hnet. split; [| reflexivity].
  destruct op; simpl in Hnet |- *;
    unfold detectDamage, createEstimation, getDetection, getEstimation,
      getEstimationSummary, listDetections, api_post, api_get, api_request,
      try_catch, bind, ret, throw, console_error; simpl;
    rewrite Hnet, response_rejected_throws; reflexivity.
Qed.

End Failures.

(** C4, refuted as stated. A call whose request fails before it is sent
    has no response, and rejects with ['An unexpected error occurred'],
    which is not the connection-failure message. *)
Lemma failure_without_request_is_unexpected :
  Api.AxiosError.response Sample.aborted = None
  ∧ Api.outcome (@Api.createEstimation Sample.host (Sample.failing Sample.aborted)
                   (JS.VNum 1) None)
    = Api.Rejected {| JS.message := "An unexpected error occurred" |}
  ∧ Api.outcome (@Api.createEstimation Sample.host (Sample.failing Sample.aborted)
                   (JS.VNum 1) None)
    ≠ Api.Rejected
        {| JS.message := "Cannot connect to server. Please ensure the backend is running." |}.
Proof.
  split; [reflexivity |]. split; [reflexivity |]. discriminate.
Qed.

Lemma failed_operation_rethrows_witness :
  Sample.failing Sample.refused
    (@Operations.request_of Sample.host (Operations.GetEstimation (JS.VNum 7)))
  = inr Sample.refused
  ∧ Api.outcome (@Api.getEstimation Sample.host (Sample.failing Sample.refused) (JS.VNum 7))
    = Api.Rejected {| JS.message := "Detection not found" |}.
Proof.
  split; [reflexivity |].
  pose proof (@failed_operation_rethrows Sample.host (Sample.failing Sample.refused)
                (Operations.GetEstimation (JS.VNum 7)) Sample.refused eq_refl) as [Hcall _].
  simpl in Hcall. rewrite Hcall. reflexivity.
Defined.

(** ** Severities on display *)

Section Severities.
Import JS DetectionResults.
Context `{Runtime}.

Lemma badges_lookup_other (s : string) : s ∉ severities → badges !! s = None.
Proof.
  intros Hs. unfold badges.
  rewrite !lookup_insert_ne, lookup_empty; [reflexivity | ..];
    intros <-; apply Hs; unfold severities; set_solver.
Qed.

Lemma getSeverityBadge_known :
  getSeverityBadge (VStr "minor") = VStr "badge-success"
  ∧ getSeverityBadge (VStr "moderate") = VStr "badge-warning"
  ∧ getSeverityBadge (VStr "severe") = VStr "badge-danger".
Proof. repeat split; reflexivity. Qed.

(** A severity that names a member of [Object.prototype] is shown with
    that member, not with a badge class. *)
Lemma getSeverityBadge_inherited :
  getSeverityBadge (VStr "constructor") = VObj "function Object() { [native code] }"
  ∧ getSeverityBadge (VStr "toString") = VObj "function toString() { [native code] }"
  ∧ getSeverityBadge (VStr "__proto__") = VObj "[object Object]".
Proof. repeat split; reflexivity. Qed.

(** C3, as amended. The views do not validate a severity: a string
    outside the fixed set (and not the name of a member inherited from
    [Object.prototype]) is not rejected but shown with a default,
    [badge-warning] (the class of moderate) by [getSeverityBadge], the
    icon of minor by [getSeverityIcon], and [badge-success] (the class
    of minor) by the itemized list of [CostEstimation]. *)
Theorem unknown_severity_is_shown_with_a_default (s : string) :
  s ∉ severities → s ∉ Object_prototype →
  getSeverityBadge (VStr s) = VStr "badge-warning"
  ∧ getSeverityBadge (VStr s) = getSeverityBadge (VStr "moderate")
  ∧ getSeverityIcon (VStr s) = getSeverityIcon (VStr "minor")
  ∧ CostEstimation.itemBadge (VStr s) = CostEstimation.itemBadge (VStr "minor").
Proof.
  intros Hs Hp.
  assert (Hbadge : getSeverityBadge (VStr s) = VStr "badge-warning").
  { unfold getSeverityBadge, member. simpl ToString.
    rewrite (badges_lookup_other s Hs).
    rewrite bool_decide_eq_false_2 by exact Hp. reflexivity. }
  assert (Hsevere : String.eqb s "severe" = false).
  { apply String.eqb_neq. intros ->. apply Hs. unfold severities. set_solver. }
  assert (Hmoderate : String.eqb s "moderate" = false).
  { apply String.eqb_neq. intros ->. apply Hs. unfold severities. set_solver. }
  split; [exact Hbadge |]. split; [rewrite Hbadge; reflexivity |].
  split.
  - unfold getSeverityIcon. simpl strict_eq. rewrite Hsevere, Hmoderate. reflexivity.
  - unfold CostEstimation.itemBadge. simpl strict_eq. rewrite Hsevere, Hmoderate. reflexivity.
Qed.

(** A missing severity is shown with the same defaults. *)
Lemma missing_severity_is_shown_with_a_default :
  getSeverityBadge VNull = VStr "badge-warning"
  ∧ getSeverityBadge VUndefined = VStr "badge-warning"
  ∧ getSeverityIcon VNull = getSeverityIcon (VStr "minor").
Proof. repeat split; reflexivity. Qed.

End Severities.

(** C3, refuted as stated. The severity ["critical"] is outside the
    fixed set, and [getSeverityBadge] maps it onto the class of
    moderate. *)
Lemma getSeverityBadge_coerces_unknown_severity :
  ("critical" ∉ DetectionResults.severities)
  ∧ @DetectionResults.getSeverityBadge Sample.host (JS.VStr "critical")
    = JS.VStr "badge-warning"
  ∧ @DetectionResults.getSeverityBadge Sample.host (JS.VStr "critical")
    = @DetectionResults.getSeverityBadge Sample.host (JS.VStr "moderate").
Proof.
  split; [| split; reflexivity].
  unfold DetectionResults.severities. intros Hin.
  repeat (apply elem_of_cons in Hin as [Heq | Hin]; [discriminate Heq |]).
  apply elem_of_nil in Hin. exact Hin.
Qed.

Lemma unknown_severity_is_shown_with_a_default_witness :
  ("critical" ∉ DetectionResults.severities)
  ∧ ("critical" ∉ DetectionResults.Object_prototype)
  ∧ @DetectionResults.getSeverityBadge Sample.host (JS.VStr "critical")
    = JS.VStr "badge-warning".
Proof.
  assert (H1 : "critical" ∉ DetectionResults.severities).
  { unfold DetectionResults.severities. intros Hin.
    repeat (apply elem_of_cons in Hin as [Heq | Hin]; [discriminate Heq |]).
    apply elem_of_nil in Hin. exact Hin. }
  assert (H2 : "critical" ∉ DetectionResults.Object_prototype).
  { unfold DetectionResults.Object_prototype. intros Hin.
    repeat (apply elem_of_cons in Hin as [Heq | Hin]; [discriminate Heq |]).
    apply elem_of_nil in Hin. exact Hin. }
  split; [exact H1 |]. split; [exact H2 |].
  destruct (@unknown_severity_is_shown_with_a_default Sample.host "critical" H1 H2)
    as (Hbadge & _).
  exact Hbadge.
Defined.

(** ** The application state *)

Section Application.
Import JS Api App.
Context `{Runtime}.

(** C9. After [handleImageUpload] the detection data, the cost
    estimation and the error are [null] and the step is 1, whatever the
    state held before: the new state is the one a fresh application
    would reach with the same file (only the [loading] flag, which the
    handler does not set, is kept), so nothing of an earlier image
    survives. *)
Theorem handleImageUpload_resets (file : File) (st : state) :
  let st' := handleImageUpload file st in
  detectionData st' = BNull
  ∧ costEstimation st' = BNull
  ∧ error st' = None
  ∧ step st' = 1%float
  ∧ uploadedImage st' = Some file
  ∧ imagePreview st' = Some (URL_createObjectURL file)
  ∧ st' = handleImageUpload file (setLoading (loading st) initial).
Proof.
  intros st'. subst st'. unfold handleImageUpload.
  destruct st as [image preview detection estimation busy banner stage]; simpl.
  repeat split; reflexivity.
Qed.

(** [handleEstimate] sends nothing and changes nothing when there is no
    detection. *)
Lemma handleEstimate_without_detection net (st : state) :
  truthy (detectionData st) = false → handleEstimate net st = ([], st).
Proof. intros Hd. unfold handleEstimate. rewrite Hd. reflexivity. Qed.

(** [handleEstimate] sends nothing and changes nothing when the
    detection counts no damage. *)
Lemma handleEstimate_without_damage net (st : state) :
  strict_eq (total_damages (detectionData st)) (VNum 0) = true →
  handleEstimate net st = ([], st).
Proof.
  intros Hz. unfold handleEstimate. rewrite Hz.
  destruct (truthy (detectionData st)); reflexivity.
Qed.

(** Otherwise it sends the estimation request of the detection, with no
    option. *)
Lemma handleEstimate_requests net (st : state) :
  truthy (detectionData st) = true →
  strict_eq (total_damages (detectionData st)) (VNum 0) = false →
  requests_of (fst (handleEstimate net st)) =
    [{| verb := POST; url := "/estimations/";
        sent := Json (payload (detection_id (detectionData st)) ∅) |}].
Proof.
  intros Hd Hz. unfold handleEstimate. rewrite Hd, Hz. simpl fst.
  apply (createEstimation_requests net _ None).
Qed.

End Application.

(** ** The Confidence cell and the estimation button *)

Section Results.
Import JS DetectionResults.
Context `{Runtime}.

(** C10. The Confidence cell shows ['N/A'] and divides nothing when the
    list of damages is empty; otherwise it performs one division, of the
    sum of the confidences by the length of the list, which is not zero.
    No division by a zero length is ever performed. *)
Theorem confidenceCell_never_divides_by_zero (damages_detected : list Damage.t) :
  Forall (fun d => divisor d ≠ 0%nat) (snd (confidenceCell damages_detected))
  ∧ match damages_detected with
    | [] => confidenceCell damages_detected = ("N/A", [])
    | _ :: rest =>
        let total :=
          fold_left (fun acc d => (acc + Damage.confidence d)%float)
            damages_detected 0%float in
        confidenceCell damages_detected =
          (Number_toFixed
             (total / Number_of_length (length damages_detected) * 100)%float 0 +:+ "%",
           [{| dividend := total; divisor := S (length rest) |}])
    end
  ∧ ∀ data hasEstimation loading,
      view_confidence (DetectionResults data hasEstimation loading)
      = fst (confidenceCell (Detection.damages_detected data)).
Proof.
  split; [| split].
  - destruct damages_detected as [| d rest]; simpl.
    + constructor.
    + constructor; [simpl; lia | constructor].
  - destruct damages_detected as [| d rest]; reflexivity.
  - reflexivity.
Qed.

(** The button that starts an estimation is absent when the detection
    counts no damage. *)
Lemma estimateButton_absent (total_damages : float) hasEstimation loading :
  (total_damages =? 0)%float = true →
  estimateButton total_damages hasEstimation loading = None.
Proof.
  intros Hz. unfold estimateButton.
  destruct (0 <? total_damages)%float eqn:Hpos.
  - apply positive_is_not_zero in Hpos as [Hnz _]. congruence.
  - rewrite andb_false_r. reflexivity.
Qed.

End Results.

(** ** The estimation engine *)

Section EngineProperties.
Import Engine.
Local Open Scope Q_scope.

Lemma line_item_well_formed d s rule labor_rate include_paint :
  well_formed labor_rate (line_item d s rule labor_rate include_paint).
Proof. split; simpl; reflexivity. Qed.

Lemma line_items_well_formed cfg labor_rate include_paint ds items :
  line_items cfg labor_rate include_paint ds = inr items →
  Forall (well_formed labor_rate) items ∧ length items = length ds.
Proof.
  revert items. induction ds as [| d ds IH]; intros items Hitems; simpl in Hitems.
  - injection Hitems as <-. split; [constructor | reflexivity].
  - destruct (lookup cfg _ _) as [e | rule]; [discriminate |].
    destruct (line_items cfg labor_rate include_paint ds) as [e | items']; [discriminate |].
    injection Hitems as <-. destruct (IH items' eq_refl) as [Hall Hlen].
    split.
    + constructor; [apply line_item_well_formed | exact Hall].
    + simpl. rewrite Hlen. reflexivity.
Qed.

(** The subtotals of well-formed items sum to the three totals. *)
Lemma total_subtotals labor_rate (items : list Item.t) :
  Forall (well_formed labor_rate) items →
  total (map Item.subtotal items)
  == total (map Item.parts_cost items) + total (map Item.labor_cost items)
     + total (map Item.paint_cost items).
Proof.
  induction 1 as [| it items [Hsub _] _ IH]; simpl.
  - reflexivity.
  - rewrite Hsub, IH. ring.
Qed.

(** What a successful [estimate] went through. *)
Lemma estimate_success cfg now req st e st' :
  estimate cfg now req st = (inr e, st') →
  ∃ labor_rate markup_percentage damages items,
    resolve_overrides cfg req = inr (labor_rate, markup_percentage)
    ∧ detections st !! Request.detection_id req = Some damages
    ∧ line_items cfg labor_rate (Request.include_paint req) damages = inr items
    ∧ e = build (Request.detection_id req) items labor_rate markup_percentage now
    ∧ st' = persist e st.
Proof.
  unfold estimate. intros Hrun.
  destruct (resolve_overrides cfg req) as [err | [labor_rate markup_percentage]];
    [discriminate |].
  destruct (detections st !! Request.detection_id req) as [damages |]; [| discriminate].
  destruct (line_items cfg labor_rate (Request.include_paint req) damages)
    as [err | items] eqn:Hitems; [discriminate |].
  injection Hrun as <- <-.
  exists labor_rate, markup_percentage, damages, items.
  split; [reflexivity |]. split; [reflexivity |]. split; [exact Hitems |].
  split; reflexivity.
Qed.

(** A labor-rate override that is not strictly positive is refused
    before anything is computed, and the store is left as it was. *)
Lemma estimate_refuses_labor_rate cfg now req st (rate : Q) :
  Request.labor_rate_override req = Some rate → rate <= 0 →
  estimate cfg now req st = (inl (InvalidOverride "labor_rate" rate), st).
Proof.
  intros Hreq Hrate. unfold estimate, resolve_overrides. rewrite Hreq.
  apply Qle_bool_iff in Hrate. rewrite Hrate. reflexivity.
Qed.

(** An omitted override falls back to the system default. *)
Lemma resolve_overrides_defaults cfg req :
  Request.labor_rate_override req = None → Request.markup_override req = None →
  resolve_overrides cfg req
  = inr (default_labor_rate cfg, default_markup_percentage cfg).
Proof. intros Hr Hm. unfold resolve_overrides. rewrite Hr, Hm. reflexivity. Qed.

(** C5. Estimating a detection whose list of damage instances is empty
    is a valid operation, not an error: with overrides that resolve, the
    engine returns an estimation, which it persists, whose total cost
    and markup are 0 and whose list of line items is empty. *)
Theorem estimate_without_damage cfg now req st labor_rate markup_percentage :
  resolve_overrides cfg req = inr (labor_rate, markup_percentage) →
  detections st !! Request.detection_id req = Some [] →
  ∃ e, estimate cfg now req st = (inr e, persist e st)
       ∧ Estimate.total_cost e == 0
       ∧ Estimate.markup e == 0
       ∧ Estimate.damage_items e = [].
Proof.
  intros Hres Hdet. unfold estimate. rewrite Hres, Hdet. simpl.
  eexists. split; [reflexivity |]. simpl. repeat split; reflexivity.
Qed.

End EngineProperties.

(** C2. For every estimation the engine produces, the markup is the
    markup percentage of the sum of the parts, labor and paint costs,
    and the total cost is the sum of the subtotals of the line items
    plus the markup; [CostEstimation] shows the markup and the total of
    the record it is given as they are. *)
Theorem estimation_totals_add_up
    `{JS.Runtime} cfg now req st (e : Engine.Estimate.t) st' :
  Engine.estimate cfg now req st = (inr e, st') →
  (Engine.Estimate.markup e
   == (Engine.Estimate.parts_cost e + Engine.Estimate.labor_cost e
       + Engine.Estimate.paint_cost e)
      * Engine.Estimate.markup_percentage e / 100)%Q
  ∧ (Engine.Estimate.total_cost e
     == Engine.total (map Engine.Item.subtotal (Engine.Estimate.damage_items e))
        + Engine.Estimate.markup e)%Q
  ∧ ∀ data : Estimation.t,
      CostEstimation.view_total (CostEstimation.CostEstimation data)
      = CostEstimation.formatCurrency (Estimation.total_cost data)
      ∧ CostEstimation.view_header_total (CostEstimation.CostEstimation data)
        = CostEstimation.formatCurrency (Estimation.total_cost data)
      ∧ CostEstimation.view_breakdown (CostEstimation.CostEstimation data) !! 3%nat
        = Some (CostEstimation.CostRow
                  ("Markup (" +:+ JS.Number_toString (Estimation.markup_percentage data)
                   +:+ "%)")
                  (Estimation.markup data)).
Proof.
  intros Hrun.
  destruct (estimate_success _ _ _ _ _ _ Hrun)
    as (labor_rate & markup_percentage & damages & items & _ & _ & Hitems & -> & _).
  apply line_items_well_formed in Hitems as [Hall _].
  split; [| split].
  - simpl. reflexivity.
  - simpl. rewrite (total_subtotals labor_rate items Hall). reflexivity.
  - intros data. repeat split; reflexivity.
Qed.

Lemma estimation_totals_add_up_witness :
  ∃ e st',
    Engine.estimate Sample.config 0 (Sample.plain_request 1) Sample.store = (inr e, st')
    ∧ (Engine.Estimate.total_cost e == 1230)%Q
    ∧ (Engine.Estimate.total_cost e
       == Engine.total (map Engine.Item.subtotal (Engine.Estimate.damage_items e))
          + Engine.Estimate.markup e)%Q.
Proof.
  eexists. eexists. split; [reflexivity |]. split; [reflexivity |].
  exact (proj1 (proj2 (@estimation_totals_add_up Sample.host Sample.config 0%nat
                         (Sample.plain_request 1) Sample.store _ _ eq_refl))).
Defined.

(** ** A detection without damage *)

(** X22. The client never asks for the estimation of a detection
    that counts no damage: when [total_damages] is 0, [handleEstimate]
    sends no request and leaves the state, and with it the absent
    estimation, as it was, and [DetectionResults] shows no button to
    start an estimation. *)
Theorem detection_without_damage_is_not_estimated
    `{JS.Runtime} net (st : App.state) (d : Detection.t) hasEstimation loading :
  App.detectionData st = Api.BDetection d →
  (Detection.total_damages d =? 0)%float = true →
  App.handleEstimate net st = ([], st)
  ∧ App.costEstimation (snd (App.handleEstimate net st)) = App.costEstimation st
  ∧ DetectionResults.view_button (DetectionResults.DetectionResults d hasEstimation loading)
    = None.
Proof.
  intros Hdata Hzero.
  assert (Hskip : App.handleEstimate net st = ([], st)).
  { apply handleEstimate_without_damage. rewrite Hdata. simpl. exact Hzero. }
  split; [exact Hskip |]. split.
  - rewrite Hskip. reflexivity.
  - simpl. apply estimateButton_absent, Hzero.
Qed.

(** A run of the client: with a detection without damage on screen, and
    a server that would answer with the all-zero estimation,
    [handleEstimate] sends nothing and the state is left without
    estimation. *)
Lemma handleEstimate_skips_detection_without_damage :
  Detection.damages_detected Sample.no_damage = []
  ∧ App.detectionData Sample.after_clean_detection = Api.BDetection Sample.no_damage
  ∧ @App.handleEstimate Sample.host Sample.obliging Sample.after_clean_detection
    = ([], Sample.after_clean_detection)
  ∧ App.costEstimation
      (snd (@App.handleEstimate Sample.host Sample.obliging Sample.after_clean_detection))
    = Api.BNull
  ∧ App.costEstimation
      (snd (@App.handleEstimate Sample.host Sample.obliging Sample.after_clean_detection))
    ≠ Api.BEstimation Sample.nothing_to_repair.
Proof.
  split; [reflexivity |]. split; [reflexivity |]. split; [reflexivity |].
  split; [reflexivity |]. discriminate.
Qed.

Lemma detection_without_damage_is_not_estimated_witness :
  App.detectionData Sample.after_clean_detection = Api.BDetection Sample.no_damage
  ∧ (Detection.total_damages Sample.no_damage =? 0)%float = true
  ∧ @App.handleEstimate Sample.host Sample.obliging Sample.after_clean_detection
    = ([], Sample.after_clean_detection).
Proof.
  split; [reflexivity |]. split; [reflexivity |].
  exact (proj1 (@detection_without_damage_is_not_estimated Sample.host Sample.obliging
                  Sample.after_clean_detection Sample.no_damage false false
                  eq_refl eq_refl)).
Defined.

Lemma estimate_detection_without_damage :
  Engine.resolve_overrides Sample.config (Sample.plain_request 2) = inr (75%Q, 20%Q)
  ∧ Engine.detections Sample.store !! 2%nat = Some []
  ∧ ∃ e, Engine.estimate Sample.config 0 (Sample.plain_request 2) Sample.store
         = (inr e, Engine.persist e Sample.store)
         ∧ (Engine.Estimate.total_cost e == 0)%Q
         ∧ (Engine.Estimate.markup e == 0)%Q
         ∧ Engine.Estimate.damage_items e = [].
Proof.
  split; [reflexivity |]. split; [reflexivity |].
  exact (estimate_without_damage Sample.config 0%nat (Sample.plain_request 2)
           Sample.store 75%Q 20%Q eq_refl eq_refl).
Defined.

(** ** Concrete runs *)

Lemma createEstimation_zero_override_is_omitted_witness :
  (0 =? 0)%float = true
  ∧ Api.Payload.labor_rate_override
      (Api.payload (JS.VNum 1) (<["laborRate" := JS.VNum 0]> ∅)) = JS.VNull.
Proof.
  split; [reflexivity |].
  exact (proj1 (@createEstimation_zero_override_is_omitted Sample.host Sample.obliging
                  (JS.VNum 1) ∅ 0%float eq_refl)).
Defined.

(** The same holds of the negative zero. *)
Lemma createEstimation_negative_zero_is_omitted :
  Api.Payload.markup_override
    (Api.payload (JS.VNum 1) (<["markup" := JS.VNum (-0)%float]> ∅)) = JS.VNull.
Proof. reflexivity. Qed.

(** A markup of 25 is forwarded, and a labor rate of -5 is. *)
Lemma createEstimation_forwards_overrides :
  Api.payload (JS.VNum 1)
    (<["markup" := JS.VNum 25]> (<["laborRate" := JS.VNum (-5)%float]> ∅))
  = {| Api.Payload.detection_id := JS.VNum 1; Api.Payload.include_paint := true;
       Api.Payload.labor_rate_override := JS.VNum (-5)%float;
       Api.Payload.markup_override := JS.VNum 25 |}.
Proof. reflexivity. Qed.

(** The engine refuses the labor rate -5 and records nothing. *)
Lemma estimate_refuses_minus_five :
  Engine.estimate Sample.config 0 (Sample.request_with_labor_rate 1 (-5)) Sample.store
  = (inl (Engine.InvalidOverride "labor_rate" (-5)), Sample.store).
Proof.
  apply estimate_refuses_labor_rate; [reflexivity | discriminate].
Qed.

(** With no override the engine estimates the damaged bumper of the
    README at the default rate and markup: 400 + 225 + 400, plus 205. *)
Lemma estimate_bumper :
  ∃ e, Engine.estimate Sample.config 0 (Sample.plain_request 1) Sample.store
       = (inr e, Engine.persist e Sample.store)
       ∧ (Engine.Estimate.labor_cost e == 225)%Q
       ∧ (Engine.Estimate.markup e == 205)%Q
       ∧ (Engine.Estimate.total_cost e == 1230)%Q.
Proof. eexists. split; [reflexivity |]. repeat split; reflexivity. Qed.

(** * Further properties of the client *)

(** ** The operations of [services/api.js] *)

Section Settling.
Import JS Api Operations.
Context `{Runtime}.

(** How an operation settles, by the answer of the transport. *)
Lemma call_settles net (op : operation) :
  call net op =
    match net (request_of op) with
    | inl response => ([Sent (request_of op)], Fulfilled (data response))
    | inr error =>
        ([Sent (request_of op);
          ConsoleError (label op) {| message := thrown_message error |}],
         Rejected {| message := thrown_message error |})
    end.
Proof.
  destruct op; simpl;
    unfold detectDamage, createEstimation, getDetection, getEstimation,
      getEstimationSummary, listDetections, api_post, api_get, api_request,
      try_catch, bind, ret, throw, console_error; simpl;
    match goal with |- context [net ?r] => destruct (net r) as [response | error] end;
    simpl; try reflexivity; rewrite response_rejected_throws; reflexivity.
Qed.

Lemma call_requests net (op : operation) :
  requests_of (events (call net op)) = [request_of op].
Proof. rewrite call_settles. destruct (net (request_of op)); reflexivity. Qed.

(** X1. An operation whose request succeeds resolves with the [data] of
    the response, unchanged, after that one request, and writes nothing
    to the console. *)
Theorem successful_operation_returns_data net (op : operation) (response : Response) :
  net (request_of op) = inl response →
  call net op = ([Sent (request_of op)], Fulfilled (data response)).
Proof. intros Hnet. rewrite call_settles, Hnet. reflexivity. Qed.

(** X2. Whatever the transport answers, an operation sends exactly one
    request, its own: it never retries and never sends a second request;
    and it writes to the console exactly when it rejects, one line,
    under its own label and with the error it rejects with. *)
Theorem operation_sends_one_request net (op : operation) :
  requests_of (events (call net op)) = [request_of op]
  ∧ match outcome (call net op) with
    | Fulfilled _ => events (call net op) = [Sent (request_of op)]
    | Rejected e =>
        events (call net op) = [Sent (request_of op); ConsoleError (label op) e]
    end.
Proof.
  rewrite call_settles. destruct (net (request_of op)); split; reflexivity.
Qed.

(** X3. The caller of a refused operation cannot tell the status of the
    response, nor the message axios gave the error: two refusals whose
    bodies carry the same [detail] and [message] make the operation
    settle in the same way. *)
Theorem refusals_differ_only_by_detail
    net1 net2 (op : operation) (e1 e2 : AxiosError.t) (r1 r2 : Response) :
  net1 (request_of op) = inr e1 → net2 (request_of op) = inr e2 →
  AxiosError.response e1 = Some r1 → AxiosError.response e2 = Some r2 →
  optional_get (data r1) "detail" = optional_get (data r2) "detail" →
  optional_get (data r1) "message" = optional_get (data r2) "message" →
  call net1 op = call net2 op.
Proof.
  intros Hn1 Hn2 Hr1 Hr2 Hdetail Hmessage.
  rewrite !call_settles, Hn1, Hn2.
  assert (Hsame : thrown_message e1 = thrown_message e2).
  { unfold thrown_message. rewrite Hr1, Hr2, Hdetail, Hmessage. reflexivity. }
  rewrite Hsame. reflexivity.
Qed.

(** X4. The estimation request never carries a falsy override other
    than [null]: each override field is [null], or the truthy value the
    caller gave; so no 0, [NaN], empty string, [false] or [undefined]
    reaches the server in these fields.  The detection identifier is
    forwarded as it is. *)
Theorem payload_overrides_are_null_or_truthy
    (detectionId : value) (options : gmap string value) :
  let p := payload detectionId options in
  Payload.detection_id p = detectionId
  ∧ (Payload.labor_rate_override p = VNull
     ∨ (ToBoolean (Payload.labor_rate_override p) = true
        ∧ Payload.labor_rate_override p = get options "laborRate"))
  ∧ (Payload.markup_override p = VNull
     ∨ (ToBoolean (Payload.markup_override p) = true
        ∧ Payload.markup_override p = get options "markup")).
Proof.
  intros p. subst p. simpl. split; [reflexivity |].
  split; unfold js_or.
  - destruct (ToBoolean (get options "laborRate")) eqn:Hb; [right | left]; auto.
  - destruct (ToBoolean (get options "markup")) eqn:Hb; [right | left]; auto.
Qed.

End Settling.

Lemma successful_operation_returns_data_witness :
  Sample.garage
    (@Operations.request_of Sample.host
       (Operations.CreateEstimation (JS.VNum 1) None))
  = inl {| Api.status := 201; Api.data := Api.BEstimation Sample.quote |}
  ∧ Api.outcome (@Api.createEstimation Sample.host Sample.garage (JS.VNum 1) None)
    = Api.Fulfilled (Api.BEstimation Sample.quote).
Proof.
  split; [reflexivity |].
  pose proof (@successful_operation_returns_data Sample.host Sample.garage
                (Operations.CreateEstimation (JS.VNum 1) None) _ eq_refl) as Hcall.
  simpl in Hcall. rewrite Hcall. reflexivity.
Defined.

Lemma refusals_differ_only_by_detail_witness :
  Api.status
    <$> Api.AxiosError.response Sample.refused = Some 404%nat
  ∧ Api.status <$> Api.AxiosError.response Sample.refused_otherwise = Some 500%nat
  ∧ @Api.getDetection Sample.host (Sample.failing Sample.refused) (JS.VNum 7)
    = @Api.getDetection Sample.host (Sample.failing Sample.refused_otherwise) (JS.VNum 7).
Proof.
  split; [reflexivity |]. split; [reflexivity |].
  exact (@refusals_differ_only_by_detail Sample.host
           (Sample.failing Sample.refused) (Sample.failing Sample.refused_otherwise)
           (Operations.GetDetection (JS.VNum 7)) Sample.refused Sample.refused_otherwise
           _ _ eq_refl eq_refl eq_refl eq_refl eq_refl eq_refl).
Defined.

(** ** The handlers of [App.jsx] against the server *)

Section Handlers.
Import JS Api Operations App Flow.
Context `{Runtime} `{Faults}.

(** The message of a banner is the message of the error, or the
    fallback when that is empty, and is never empty when the fallback
    is not. *)
Lemma message_or_nonempty (err : Error) (fallback : string) :
  fallback ≠ "" → message_or err fallback ≠ "".
Proof.
  intros Hf. unfold message_or.
  destruct (String.eqb (message err) "") eqn:He; [exact Hf |].
  apply String.eqb_neq, He.
Qed.

(** The request [handleEstimate] sends for a detection, and the request
    [handleDetect] sends for an image. *)
Lemma createEstimation_is_call net detectionId :
  createEstimation net detectionId None = call net (CreateEstimation detectionId None).
Proof. reflexivity. Qed.

Lemma detectDamage_is_call net image :
  detectDamage net image VUndefined = call net (DetectDamage image VUndefined).
Proof. reflexivity. Qed.

(** X5. [handleEstimate], when there is a detection that counts some
    damage, sends the estimation request of that detection and ends
    with [loading] false, the image and the detection untouched.  If the
    server answers, the answer becomes the cost estimation, the step is
    3 and the banner is cleared; if the request fails, the cost
    estimation and the step are as before and the banner is an error
    whose message is the message thrown by the interceptor, or the
    fallback text when that is empty: never an empty banner. *)
Theorem handleEstimate_settles net (st : state) :
  truthy (detectionData st) = true →
  strict_eq (total_damages (detectionData st)) (VNum 0) = false →
  let r := request_of (CreateEstimation (detection_id (detectionData st)) None) in
  let st' := snd (handleEstimate net st) in
  requests_of (fst (handleEstimate net st)) = [r]
  ∧ loading st' = false
  ∧ uploadedImage st' = uploadedImage st
  ∧ imagePreview st' = imagePreview st
  ∧ detectionData st' = detectionData st
  ∧ match net r with
    | inl response =>
        costEstimation st' = data response ∧ step st' = 3%float ∧ error st' = None
    | inr e =>
        costEstimation st' = costEstimation st ∧ step st' = step st
        ∧ ∃ b, error st' = Some b ∧ Banner.type b = "error" ∧ Banner.message b ≠ ""
               ∧ Banner.message b =
                   if String.eqb (thrown_message e) ""
                   then "Failed to estimate costs. Please try again."
                   else thrown_message e
    end.
Proof.
  intros Hd Hz r st'. subst r st'. unfold handleEstimate. rewrite Hd, Hz. simpl negb.
  cbv iota. rewrite createEstimation_is_call, call_settles.
  destruct (net _) as [response | e]; simpl.
  - repeat split; reflexivity.
  - repeat split; try reflexivity.
    eexists. split; [reflexivity |]. split; [reflexivity |]. split; [| reflexivity].
    apply message_or_nonempty. discriminate.
Qed.

(** X6. [handleDetect], when an image is uploaded, sends the upload of
    that image and ends with [loading] false, the image and the cost
    estimation untouched.  If the server answers, the answer becomes the
    detection and the step is 2; the banner is then the information
    that no damage was found when the answer counts 0 damage, cleared
    when it counts another number, and an error when the answer is
    [null].  If the request fails, the detection and the step are as
    before and the banner is an error with a message that is never
    empty. *)
Theorem handleDetect_settles net (st : state) (image : File) :
  uploadedImage st = Some image →
  let r := request_of (DetectDamage image VUndefined) in
  let st' := snd (handleDetect net st) in
  requests_of (fst (handleDetect net st)) = [r]
  ∧ loading st' = false
  ∧ uploadedImage st' = uploadedImage st
  ∧ imagePreview st' = imagePreview st
  ∧ costEstimation st' = costEstimation st
  ∧ match net r with
    | inl response =>
        detectionData st' = data response ∧ step st' = 2%float
        ∧ match data response with
          | BNull =>
              ∃ b, error st' = Some b ∧ Banner.type b = "error" ∧ Banner.message b ≠ ""
          | result =>
              error st' =
                if strict_eq (total_damages result) (VNum 0)
                then Some {| Banner.type := "info";
                             Banner.message :=
                               "No damages detected! Your car looks great! 🎉" |}
                else None
          end
    | inr e =>
        detectionData st' = detectionData st ∧ step st' = step st
        ∧ ∃ b, error st' = Some b ∧ Banner.type b = "error" ∧ Banner.message b ≠ ""
               ∧ Banner.message b =
                   if String.eqb (thrown_message e) ""
                   then "Failed to detect damages. Please try again."
                   else thrown_message e
    end.
Proof.
  intros Himage r st'. subst r st'.
  destruct st as [image' preview detection estimation busy oldbanner stage].
  simpl in Himage. subst image'. unfold handleDetect. simpl uploadedImage.
  cbv beta iota. rewrite detectDamage_is_call, call_settles.
  destruct (net _) as [response | e]; simpl.
  - split; [reflexivity |].
    destruct (data response) as [| s | fields | d | est]; simpl;
      try match goal with
          | |- context [if ?c then _ else _] => destruct c
          end;
      simpl; repeat (split; [reflexivity |]); try reflexivity.
    eexists. split; [reflexivity |]. split; [reflexivity |].
    apply message_or_nonempty. discriminate.
  - repeat split; try reflexivity.
    eexists. split; [reflexivity |]. split; [reflexivity |]. split; [| reflexivity].
    apply message_or_nonempty. discriminate.
Qed.

(** X7. The application sends two kinds of request and no other: an
    upload with the default threshold 0.25 and severity detection on,
    and an estimation request that asks for paint and carries no
    override of the labor rate or of the markup. *)
Theorem application_requests net (st : state) :
  (requests_of (fst (handleDetect net st)) = []
   ∨ ∃ image,
       uploadedImage st = Some image
       ∧ requests_of (fst (handleDetect net st)) =
           [{| verb := POST; url := "/detections/";
               sent := FormData
                 [("file", FormFile image);
                  ("confidence_threshold", FormText (Number_toString 0.25));
                  ("detect_severity", FormText "true")] |}])
  ∧ (requests_of (fst (handleEstimate net st)) = []
     ∨ requests_of (fst (handleEstimate net st)) =
         [{| verb := POST; url := "/estimations/";
             sent := Json {| Payload.detection_id := detection_id (detectionData st);
                             Payload.include_paint := true;
                             Payload.labor_rate_override := VNull;
                             Payload.markup_override := VNull |} |}]).
Proof.
  split.
  - destruct (uploadedImage st) as [image |] eqn:Himage.
    + right. exists image. split; [reflexivity |].
      unfold handleDetect. rewrite Himage. simpl fst.
      rewrite detectDamage_is_call, call_requests. reflexivity.
    + left. unfold handleDetect. rewrite Himage. reflexivity.
  - destruct (truthy (detectionData st)) eqn:Hd.
    + destruct (strict_eq (total_damages (detectionData st)) (VNum 0)) eqn:Hz.
      * left. rewrite handleEstimate_without_damage by exact Hz. reflexivity.
      * right. rewrite handleEstimate_requests by assumption. reflexivity.
    + left. rewrite handleEstimate_without_detection by exact Hd. reflexivity.
Qed.

End Handlers.

(** ** What the screen offers *)

Section Offers.
Import JS Api Operations App Flow.
Context `{Runtime} `{Faults}.

Lemma render_upload_zone (st : state) (s : screen) :
  render st = Some s → upload_zone s = true → uploadedImage st = None.
Proof.
  unfold render. destruct (uploadedImage st) as [image |]; [| reflexivity].
  destruct (slot (detectionData st) _ _) as [results |]; [| discriminate].
  destruct (slot (costEstimation st) _ _) as [estimation |]; [| discriminate].
  intros [= <-]. discriminate.
Qed.

Lemma render_detect_button (st : state) (s : screen) :
  render st = Some s → clickable (detect_button s) = true →
  ∃ image, uploadedImage st = Some image
           ∧ truthy (detectionData st) = false ∧ loading st = false.
Proof.
  unfold render. destruct (uploadedImage st) as [image |].
  - destruct (slot (detectionData st) _ _) as [results |]; [| discriminate].
    destruct (slot (costEstimation st) _ _) as [estimation |]; [| discriminate].
    intros [= <-]. simpl.
    destruct (truthy (detectionData st)); [discriminate |].
    simpl. intros Hl. apply negb_true_iff in Hl. eauto.
  - intros [= <-]. discriminate.
Qed.

Lemma render_estimate_button (st : state) (s : screen) :
  render st = Some s → offered s ClickEstimate = true →
  ∃ image d, uploadedImage st = Some image
             ∧ detectionData st = BDetection d
             ∧ truthy (costEstimation st) = false
             ∧ (0 <? Detection.total_damages d)%float = true
             ∧ loading st = false.
Proof.
  unfold render. destruct (uploadedImage st) as [image |].
  - destruct (detectionData st) as [| t | fields | d | e] eqn:Hd; unfold slot at 1; simpl;
      try (destruct (String.eqb t ""); simpl);
      try discriminate;
      destruct (slot (costEstimation st) _ _) as [estimation |]; try discriminate;
      intros [= <-]; simpl; try discriminate.
    unfold DetectionResults.estimateButton.
    destruct (truthy (costEstimation st)); simpl; [discriminate |].
    destruct (0 <? Detection.total_damages d)%float eqn:Hpos; simpl; [| discriminate].
    intros Hl. apply negb_true_iff in Hl. exists image, d. auto.
  - intros [= <-]. discriminate.
Qed.

(** X8. A click the screen offers always reaches the server: when the
    Detect button is rendered and enabled, [handleDetect] uploads the
    image, and when the estimation button is rendered and enabled,
    [handleEstimate] sends the estimation request; the guards of the
    handlers never turn an offered click into nothing. *)
Theorem offered_click_sends_a_request net (st : state) (s : screen) (a : action) :
  render st = Some s → offered s a = true →
  match a with
  | ClickDetect | ClickEstimate => ∃ r, requests_of (fst (perform net a st)) = [r]
  | Drop _ | ClickReset => fst (perform net a st) = []
  end.
Proof.
  intros Hs Ha. destruct a as [files | | |]; simpl in *; try reflexivity.
  - destruct (render_detect_button st s Hs Ha) as (image & Himage & _ & _).
    unfold handleDetect. rewrite Himage. simpl fst.
    rewrite detectDamage_is_call, call_requests. eauto.
  - destruct (render_estimate_button st s Hs Ha) as (image & d & _ & Hd & _ & Hpos & _).
    rewrite handleEstimate_requests; [eauto | rewrite Hd; reflexivity |].
    rewrite Hd. simpl. apply positive_is_not_zero in Hpos as [Hz _]. exact Hz.
Qed.

Lemma consistent_initial : consistent initial.
Proof. split; reflexivity. Qed.

(** Every offered action keeps the state consistent. *)
Lemma consistent_step net (st : state) (s : screen) (a : action) :
  consistent st → render st = Some s → offered s a = true → answers_in_kind net →
  consistent (snd (perform net a st)).
Proof.
  intros [Hload Hst] Hs Ha Hnet. destruct a as [files | | |]; simpl in Ha |- *.
  - (* a drop on the upload zone *)
    rewrite (render_upload_zone st s Hs Ha) in Hst. subst st.
    destruct files as [| file rest]; [apply consistent_initial |].
    split; [reflexivity |]. simpl. left. auto.
  - (* Reset *)
    destruct st as [image preview detection estimation busy oldbanner stage].
    simpl in Hload. subst busy. split; reflexivity.
  - (* Detect *)
    destruct (render_detect_button st s Hs Ha) as (image & Himage & Hfalsy & _).
    rewrite Himage in Hst.
    assert (Hone : step st = 1%float ∧ detectionData st = BNull
                   ∧ costEstimation st = BNull).
    { destruct Hst as [Hone | [(_ & d & Hd & _) | (_ & d & e & Hd & _)]];
        [exact Hone | |]; rewrite Hd in Hfalsy; discriminate. }
    destruct Hone as (Hstep & Hd & Hc).
    destruct st as [image' preview detection estimation busy oldbanner stage].
    simpl in *. subst. unfold handleDetect. simpl uploadedImage. cbv beta iota.
    rewrite detectDamage_is_call, call_settles.
    destruct (net _) as [response | e] eqn:Hanswer.
    + destruct (Hnet _ _ Hanswer) as [d Hdata]. simpl snd. simpl outcome.
      rewrite Hdata. cbv beta iota.
      split; [destruct (strict_eq _ _); reflexivity |].
      destruct (strict_eq _ _); simpl; right; left; eauto.
    + simpl. split; [reflexivity |]. left. auto.
  - (* Estimate *)
    destruct (render_estimate_button st s Hs Ha)
      as (image & d & Himage & Hd & Hfalsy & Hpos & _).
    rewrite Himage in Hst.
    assert (Htwo : step st = 2%float ∧ costEstimation st = BNull).
    { destruct Hst as [(_ & Hd' & _) | [(Hstep & d' & _ & Hc) | (_ & d' & e & _ & Hc & _)]].
      - rewrite Hd in Hd'. discriminate.
      - auto.
      - rewrite Hc in Hfalsy. discriminate. }
    destruct Htwo as [Hstep Hc].
    destruct st as [image' preview detection estimation busy oldbanner stage].
    simpl in *. subst. unfold handleEstimate. simpl detectionData. simpl truthy.
    cbv beta iota. simpl total_damages. simpl strict_eq.
    destruct (positive_is_not_zero _ Hpos) as [Hz _]. rewrite Hz.
    rewrite createEstimation_is_call, call_settles.
    destruct (net _) as [response | e] eqn:Hanswer.
    + destruct (Hnet _ _ Hanswer) as [est Hdata]. simpl. rewrite Hdata.
      split; [reflexivity |]. right. right. split; [reflexivity |].
      exists d, est. split; [reflexivity |]. split; [reflexivity |]. exact Hpos.
    + simpl. split; [reflexivity |]. right. left. split; [reflexivity |]. eauto.
Qed.

End Offers.

(** ** The states the user can reach *)

Section Reachable.
Import JS Api Operations App Flow.
Context `{Runtime} `{Faults}.

Lemma reachable_consistent (st : state) : reachable st → consistent st.
Proof.
  induction 1 as [| st s a net _ IH Hs Ha Hnet].
  - apply consistent_initial.
  - apply (consistent_step net st s a IH Hs Ha Hnet).
Qed.

(** What a consistent state renders. *)
Lemma consistent_screen (st : state) :
  consistent st →
  ∃ s, render st = Some s
       ∧ spinner s = false
       ∧ indicator s = (true, bool_decide (is_Some (results s)),
                        bool_decide (is_Some (estimation s)))
       ∧ upload_zone s = negb (reset_button s)
       ∧ clickable (detect_button s)
         = reset_button s && negb (bool_decide (is_Some (results s))).
Proof.
  intros [Hload Hst].
  destruct st as [image preview detection estimation busy oldbanner stage].
  simpl in *. subst busy. destruct image as [image |].
  - destruct Hst as [(-> & -> & ->) | [(-> & d & -> & ->) | (-> & d & e & -> & -> & _)]];
      eexists; (split; [reflexivity |]); simpl; repeat split; reflexivity.
  - injection Hst as -> -> -> -> ->.
    eexists. split; [reflexivity |]. simpl. repeat split; reflexivity.
Qed.

(** X9. In every state the user can reach, with handlers that run to
    completion against a server that answers in kind, the step, the
    detection and the estimation agree: nothing is loading, and either
    nothing is uploaded and the state is the initial one, or the step is
    1 and there is no detection and no estimation, or the step is 2 and
    there is a detection and no estimation, or the step is 3 and there
    is the estimation of a detection that counts some damage. *)
Theorem reachable_states_are_consistent (st : state) :
  reachable st →
  loading st = false
  ∧ match uploadedImage st with
    | None => st = initial
    | Some _ =>
        (step st = 1%float ∧ detectionData st = BNull ∧ costEstimation st = BNull)
        ∨ (step st = 2%float
           ∧ ∃ d, detectionData st = BDetection d ∧ costEstimation st = BNull)
        ∨ (step st = 3%float
           ∧ ∃ d e, detectionData st = BDetection d ∧ costEstimation st = BEstimation e
                    ∧ (0 <? Detection.total_damages d)%float = true)
    end.
Proof. intros Hr. apply (reachable_consistent st Hr). Qed.

(** X10. In every state of [reachable], that is, in every state the
    user can reach when each handler runs to completion before the next
    action (no action falls while a request is in flight) and the server
    answers in kind, the application renders, the spinner is off, and
    the progress bar agrees with what is shown:
    step 1 is lit, step 2 is lit exactly when the detection results are
    shown, and step 3 exactly when the cost estimation is; the upload
    zone is shown exactly when the Reset button is not, and the Detect
    button can be clicked exactly when the preview is shown without
    detection results. *)
Theorem reachable_screen_agrees_with_progress (st : state) :
  reachable st →
  ∃ s, render st = Some s
       ∧ spinner s = false
       ∧ indicator s = (true, bool_decide (is_Some (results s)),
                        bool_decide (is_Some (estimation s)))
       ∧ upload_zone s = negb (reset_button s)
       ∧ clickable (detect_button s)
         = reset_button s && negb (bool_decide (is_Some (results s))).
Proof. intros Hr. apply consistent_screen, reachable_consistent, Hr. Qed.

(** X11. Whatever the state, after a drop of one or more files the
    application shows the preview of the first of them with the Reset
    and Detect buttons, step 1 alone lit, no banner, no results and no
    estimation; a drop that accepted no file changes nothing. *)
Theorem drop_shows_the_preview (file : File) (rest : list File) (st : state) :
  render (ImageUpload.onDrop handleImageUpload (file :: rest) st)
  = Some {| indicator := (true, false, false); banner := None; spinner := loading st;
            upload_zone := false; preview := Some (Some (URL_createObjectURL file));
            reset_button := true; detect_button := Some (loading st);
            results := None; estimation := None |}
  ∧ ImageUpload.onDrop handleImageUpload (file :: rest) st
    = ImageUpload.onDrop handleImageUpload [file] st
  ∧ ImageUpload.onDrop handleImageUpload [] st = st.
Proof. repeat split; reflexivity. Qed.

(** X12. Reset brings any state back to the initial one, but for the
    [loading] flag, which it leaves as it is; the upload zone is then
    shown, and the two handlers that talk to the server do nothing and
    send nothing until a file is dropped. *)
Theorem reset_returns_to_the_upload_zone net (st : state) :
  handleReset st = setLoading (loading st) initial
  ∧ handleReset (handleReset st) = handleReset st
  ∧ (∃ s, render (handleReset st) = Some s ∧ upload_zone s = true
          ∧ ∀ a, offered s a = true → ∃ files, a = Drop files)
  ∧ handleDetect net (handleReset st) = ([], handleReset st)
  ∧ handleEstimate net (handleReset st) = ([], handleReset st).
Proof.
  destruct st as [image preview detection estimation busy oldbanner stage].
  split; [reflexivity |]. split; [reflexivity |]. split; [| split; reflexivity].
  eexists. split; [reflexivity |]. split; [reflexivity |].
  intros [files | | |]; simpl; try discriminate. eauto.
Qed.

End Reachable.

(** ** From the upload to the estimation *)

Section Journey.
Import JS Api Operations App Flow.
Context `{Runtime} `{Faults}.

(** X13. From the initial state, dropping a file, clicking Detect and
    clicking the estimation button, against a server that finds some
    damage and then quotes it, sends the upload of the file and then the
    estimation request of the detection found, in that order, and ends
    at step 3 with that detection and that estimation on screen, no
    banner, no spinner, and neither the Detect nor the estimation button
    left to click. *)
Theorem upload_detect_estimate
    net (file : File) (d : Detection.t) (e : Estimation.t) (r1 r2 : Response) :
  let dropped := ImageUpload.onDrop handleImageUpload [file] initial in
  let detected := handleDetect net dropped in
  let estimated := handleEstimate net (snd detected) in
  net (request_of (DetectDamage file VUndefined)) = inl r1 →
  data r1 = BDetection d →
  (0 <? Detection.total_damages d)%float = true →
  net (request_of (CreateEstimation (VNum (Detection.detection_id d)) None)) = inl r2 →
  data r2 = BEstimation e →
  requests_of (fst detected ++ fst estimated)
  = [request_of (DetectDamage file VUndefined);
     request_of (CreateEstimation (VNum (Detection.detection_id d)) None)]
  ∧ snd estimated
    = {| uploadedImage := Some file;
         imagePreview := Some (URL_createObjectURL file);
         detectionData := BDetection d; costEstimation := BEstimation e;
         loading := false; error := None; step := 3 |}
  ∧ render (snd estimated)
    = Some {| indicator := (true, true, true); banner := None; spinner := false;
              upload_zone := false;
              preview := Some (Some (URL_createObjectURL file));
              reset_button := true; detect_button := None;
              results := Some (DetectionResults.DetectionResults d true false);
              estimation := Some (CostEstimation.CostEstimation e) |}
  ∧ DetectionResults.view_button (DetectionResults.DetectionResults d true false) = None.
Proof.
  intros dropped detected estimated Hn1 Hd1 Hpos Hn2 Hd2.
  destruct (positive_is_not_zero _ Hpos) as [Hz _].
  assert (Hdetected : detected =
            ([Sent (request_of (DetectDamage file VUndefined))],
             {| uploadedImage := Some file;
                imagePreview := Some (URL_createObjectURL file);
                detectionData := BDetection d; costEstimation := BNull;
                loading := false; error := None; step := 2 |})).
  { subst detected dropped. unfold handleDetect. simpl uploadedImage. cbv beta iota.
    rewrite detectDamage_is_call, call_settles, Hn1. simpl. rewrite Hd1. simpl.
    rewrite Hz. reflexivity. }
  assert (Hestimated : estimated =
            ([Sent (request_of (CreateEstimation (VNum (Detection.detection_id d)) None))],
             {| uploadedImage := Some file;
                imagePreview := Some (URL_createObjectURL file);
                detectionData := BDetection d; costEstimation := BEstimation e;
                loading := false; error := None; step := 3 |})).
  { subst estimated. rewrite Hdetected. unfold handleEstimate. simpl.
    rewrite Hz. rewrite createEstimation_is_call, call_settles, Hn2. simpl.
    rewrite Hd2. reflexivity. }
  rewrite Hestimated, Hdetected. simpl.
  split; [reflexivity |]. split; [reflexivity |]. split; reflexivity.
Qed.

(** X14. After a detection that counts no damage, on a state without
    estimation, the application shows the results with the information
    banner, and the only thing left to click is Reset: no estimation can
    be asked for. *)
Theorem detection_without_damage_offers_reset_only
    net (st : state) (image : File) (d : Detection.t) (r : Response) :
  uploadedImage st = Some image → costEstimation st = BNull →
  net (request_of (DetectDamage image VUndefined)) = inl r →
  data r = BDetection d →
  (Detection.total_damages d =? 0)%float = true →
  ∃ s, render (snd (handleDetect net st)) = Some s
       ∧ banner s = Some ("border-l-4 border-primary-500", "text-primary-700",
                          "No damages detected! Your car looks great! 🎉")
       ∧ results s = Some (DetectionResults.DetectionResults d false false)
       ∧ estimation s = None
       ∧ ∀ a, offered s a = true → a = ClickReset.
Proof.
  intros Himage Hc Hn Hd Hz.
  destruct st as [image' preview detection estimation busy oldbanner stage].
  simpl in Himage, Hc. subst image' estimation.
  unfold handleDetect. simpl uploadedImage. cbv beta iota.
  rewrite detectDamage_is_call, call_settles, Hn. simpl. rewrite Hd. simpl. rewrite Hz.
  eexists. split; [reflexivity |]. simpl.
  split; [reflexivity |]. split; [reflexivity |]. split; [reflexivity |].
  intros [files | | |]; try discriminate; [reflexivity |].
  unfold offered. simpl results. cbv beta iota.
  change (DetectionResults.view_button (DetectionResults.DetectionResults d false false))
    with (DetectionResults.estimateButton (Detection.total_damages d) false false).
  rewrite (estimateButton_absent _ _ _ Hz). discriminate.
Qed.

End Journey.

(** ** What the views show *)

Section Views.
Import JS DetectionResults.
Context `{Runtime}.

Lemma replace_length (c r : Ascii.ascii) (s : string) :
  String.length (replace c r s) = String.length s.
Proof. induction s as [| a s IH]; simpl; [reflexivity | rewrite IH; reflexivity]. Qed.

Lemma replace_get (c r : Ascii.ascii) (s : string) (i : nat) :
  String.get i (replace c r s)
  = (fun a => if Ascii.eqb a c then r else a) <$> String.get i s.
Proof.
  revert i. induction s as [| a s IH]; intros i; simpl; [reflexivity |].
  destruct i as [| i]; [reflexivity | apply IH].
Qed.

(** X15. The title shown for a damage type is the damage type with
    every underscore and every hyphen replaced by a space and nothing
    else changed: it has the same length, each of its characters is the
    character at the same place, or a space where that was an underscore
    or a hyphen; a title holds no underscore and no hyphen, and titling
    twice is titling once. *)
Theorem title_replaces_separators (damage_type : string) :
  String.length (title damage_type) = String.length damage_type
  ∧ (∀ i, String.get i (title damage_type)
          = (fun a => if Ascii.eqb a "_" || Ascii.eqb a "-" then " "%char else a)
              <$> String.get i damage_type)
  ∧ (∀ i, String.get i (title damage_type) ≠ Some "_"%char
          ∧ String.get i (title damage_type) ≠ Some "-"%char)
  ∧ title (title damage_type) = title damage_type.
Proof.
  assert (Hget : ∀ s i, String.get i (title s)
            = (fun a => if Ascii.eqb a "_" || Ascii.eqb a "-" then " "%char else a)
                <$> String.get i s).
  { intros s i. unfold title. rewrite !replace_get.
    destruct (String.get i s) as [a |]; simpl; [| reflexivity].
    destruct (Ascii.eqb a "_") eqn:Hu; simpl; [reflexivity |].
    destruct (Ascii.eqb a "-"); reflexivity. }
  split; [unfold title; rewrite !replace_length; reflexivity |].
  split; [apply Hget |]. split.
  - intros i. rewrite Hget. destruct (String.get i damage_type) as [a |]; simpl;
      [| split; discriminate].
    destruct (Ascii.eqb a "_") eqn:Hu; simpl; [split; discriminate |].
    destruct (Ascii.eqb a "-") eqn:Hh; [split; discriminate |].
    apply Ascii.eqb_neq in Hu, Hh. split; congruence.
  - unfold title. induction damage_type as [| a s IH]; simpl; [reflexivity |].
    rewrite IH. f_equal.
    destruct (Ascii.eqb a "_") eqn:Hu; simpl; [reflexivity |].
    destruct (Ascii.eqb a "-") eqn:Hh; simpl; [reflexivity |].
    rewrite Hu, Hh. reflexivity.
Qed.

Lemma badges_lookup (k : string) :
  badges !! k =
    if String.eqb k "minor" then Some (VStr "badge-success")
    else if String.eqb k "moderate" then Some (VStr "badge-warning")
    else if String.eqb k "severe" then Some (VStr "badge-danger")
    else None.
Proof.
  unfold badges.
  destruct (String.eqb k "minor") eqn:H1.
  { apply String.eqb_eq in H1 as ->. reflexivity. }
  destruct (String.eqb k "moderate") eqn:H2.
  { apply String.eqb_eq in H2 as ->. reflexivity. }
  destruct (String.eqb k "severe") eqn:H3.
  { apply String.eqb_eq in H3 as ->. reflexivity. }
  apply String.eqb_neq in H1, H2, H3.
  rewrite !lookup_insert_ne by congruence. apply lookup_empty.
Qed.

(** X16. [getSeverityBadge] sees a severity only through its string
    coercion: whenever that string is not the name of a member inherited
    from [Object.prototype], the result is one of the three classes,
    [badge-success] for ["minor"], [badge-danger] for ["severe"] and
    [badge-warning] for everything else, [null], [undefined], numbers
    and the string ["moderate"] alike. *)
Theorem getSeverityBadge_by_string (severity : value) :
  ToString severity ∉ Object_prototype →
  getSeverityBadge severity
  = VStr (if String.eqb (ToString severity) "minor" then "badge-success"
          else if String.eqb (ToString severity) "severe" then "badge-danger"
          else "badge-warning").
Proof.
  intros Hp. unfold getSeverityBadge, member. rewrite badges_lookup.
  destruct (String.eqb (ToString severity) "minor") eqn:H1; [reflexivity |].
  destruct (String.eqb (ToString severity) "moderate") eqn:H2.
  { apply String.eqb_eq in H2. rewrite H2. reflexivity. }
  destruct (String.eqb (ToString severity) "severe") eqn:H3; [reflexivity |].
  rewrite bool_decide_eq_false_2 by exact Hp. reflexivity.
Qed.

Lemma percent_is_not_NA (s : string) : s +:+ "%" ≠ "N/A".
Proof.
  destruct s as [| a [| b [| c [| d s]]]]; simpl; discriminate.
Qed.

(** X17. The list of damages and the Confidence cell of
    [DetectionResults] always agree: the placeholder for an empty list
    is shown exactly when the cell reads ['N/A'], which is exactly when
    [damages_detected] is empty; otherwise the list has one row per
    damage, in order, each with the icon, title and badge of its
    damage. *)
Theorem results_list_agrees_with_confidence
    (data : Detection.t) (hasEstimation loading : bool) :
  let v := DetectionResults data hasEstimation loading in
  (view_rows v = None ↔ Detection.damages_detected data = [])
  ∧ (view_confidence v = "N/A" ↔ Detection.damages_detected data = [])
  ∧ (Detection.damages_detected data ≠ [] →
     view_rows v = Some (map damageRow (Detection.damages_detected data))
     ∧ ∀ i damage, Detection.damages_detected data !! i = Some damage →
         ∃ row, map damageRow (Detection.damages_detected data) !! i = Some row
                ∧ row_icon row = getSeverityIcon (Damage.severity damage)
                ∧ row_title row = title (Damage.damage_type damage)
                ∧ row_severity row = Damage.severity damage).
Proof.
  intros v. subst v. unfold DetectionResults. simpl.
  destruct (Detection.damages_detected data) as [| damage rest] eqn:Hd; simpl.
  - split; [tauto |]. split; [tauto |]. intros Hne. congruence.
  - unfold confidenceCell. simpl.
    split; [split; discriminate |]. split.
    + split; [| discriminate]. intros Hna. exfalso. exact (percent_is_not_NA _ Hna).
    + intros _. split; [reflexivity |].
      intros i damage' Hi.
      change (damageRow damage :: map damageRow rest)
        with (map damageRow (damage :: rest)).
      rewrite list_lookup_fmap, Hi. simpl. eexists. split; [reflexivity |].
      repeat split; reflexivity.
Qed.

End Views.

(** ** Concrete runs of the further properties *)

Lemma garage_answers_in_kind : Flow.answers_in_kind Sample.garage.
Proof.
  intros r response. unfold Sample.garage.
  destruct (Api.sent r); intros [= <-]; simpl; eauto.
Qed.

Lemma photo_on_screen_is_reachable :
  @Flow.reachable Sample.host Sample.v8 Sample.photo_on_screen.
Proof.
  exact (@Flow.reachable_step Sample.host Sample.v8 App.initial _
           (Flow.Drop [Sample.photo]) Sample.garage
           (@Flow.reachable_initial Sample.host Sample.v8)
           eq_refl eq_refl garage_answers_in_kind).
Qed.

Lemma dent_on_screen_is_reachable :
  @Flow.reachable Sample.host Sample.v8 Sample.dent_on_screen.
Proof.
  exact (@Flow.reachable_step Sample.host Sample.v8 Sample.photo_on_screen _
           Flow.ClickDetect Sample.garage photo_on_screen_is_reachable
           eq_refl eq_refl garage_answers_in_kind).
Qed.

Lemma handleEstimate_settles_witness :
  App.truthy (App.detectionData Sample.dent_on_screen) = true
  ∧ JS.strict_eq (App.total_damages (App.detectionData Sample.dent_on_screen))
      (JS.VNum 0) = false
  ∧ App.costEstimation
      (snd (@App.handleEstimate Sample.host Sample.garage Sample.dent_on_screen))
    = Api.BEstimation Sample.quote.
Proof.
  split; [reflexivity |]. split; [reflexivity |].
  destruct (@handleEstimate_settles Sample.host Sample.garage Sample.dent_on_screen
              eq_refl eq_refl) as (_ & _ & _ & _ & _ & Hanswer).
  simpl in Hanswer. destruct Hanswer as (Hquote & _). exact Hquote.
Defined.

Lemma handleDetect_settles_witness :
  App.uploadedImage Sample.photo_on_screen = Some Sample.photo
  ∧ App.detectionData
      (snd (@Flow.handleDetect Sample.host Sample.v8 Sample.garage Sample.photo_on_screen))
    = Api.BDetection Sample.one_dent.
Proof.
  split; [reflexivity |].
  destruct (@handleDetect_settles Sample.host Sample.v8 Sample.garage
              Sample.photo_on_screen Sample.photo eq_refl)
    as (_ & _ & _ & _ & _ & Hanswer).
  simpl in Hanswer. destruct Hanswer as (Hfound & _). exact Hfound.
Defined.

Lemma offered_click_sends_a_request_witness :
  ∃ s, @Flow.render Sample.host Sample.dent_on_screen = Some s
       ∧ Flow.offered s Flow.ClickEstimate = true
       ∧ ∃ r, Api.requests_of
                (fst (@Flow.perform Sample.host Sample.v8 Sample.garage
                        Flow.ClickEstimate Sample.dent_on_screen)) = [r].
Proof.
  eexists. split; [reflexivity |]. split; [reflexivity |].
  exact (@offered_click_sends_a_request Sample.host Sample.v8 Sample.garage
           Sample.dent_on_screen _ Flow.ClickEstimate eq_refl eq_refl).
Defined.

Lemma reachable_states_are_consistent_witness :
  @Flow.reachable Sample.host Sample.v8 Sample.dent_on_screen
  ∧ App.loading Sample.dent_on_screen = false.
Proof.
  split; [exact dent_on_screen_is_reachable |].
  exact (proj1 (@reachable_states_are_consistent Sample.host Sample.v8
                  Sample.dent_on_screen dent_on_screen_is_reachable)).
Defined.

Lemma reachable_screen_agrees_with_progress_witness :
  @Flow.reachable Sample.host Sample.v8 Sample.photo_on_screen
  ∧ ∃ s, @Flow.render Sample.host Sample.photo_on_screen = Some s
         ∧ Flow.spinner s = false.
Proof.
  split; [exact photo_on_screen_is_reachable |].
  destruct (@reachable_screen_agrees_with_progress Sample.host Sample.v8
              Sample.photo_on_screen photo_on_screen_is_reachable)
    as (s & Hs & Hspinner & _).
  exists s. split; assumption.
Defined.

Lemma upload_detect_estimate_witness :
  (0 <? Detection.total_damages Sample.one_dent)%float = true
  ∧ App.step
      (snd (@App.handleEstimate Sample.host Sample.garage
              (snd (@Flow.handleDetect Sample.host Sample.v8 Sample.garage
                      (ImageUpload.onDrop (@App.handleImageUpload Sample.host)
                         [Sample.photo] App.initial)))))
    = 3%float.
Proof.
  split; [reflexivity |].
  destruct (@upload_detect_estimate Sample.host Sample.v8 Sample.garage Sample.photo
              Sample.one_dent Sample.quote _ _ eq_refl eq_refl eq_refl eq_refl eq_refl)
    as (_ & Hfinal & _).
  rewrite Hfinal. reflexivity.
Defined.

Lemma detection_without_damage_offers_reset_only_witness :
  (Detection.total_damages Sample.no_damage =? 0)%float = true
  ∧ ∃ s, @Flow.render Sample.host
           (snd (@Flow.handleDetect Sample.host Sample.v8 Sample.spotless
                   Sample.photo_on_screen)) = Some s
         ∧ Flow.offered s Flow.ClickEstimate = false.
Proof.
  split; [reflexivity |].
  destruct (@detection_without_damage_offers_reset_only Sample.host Sample.v8
              Sample.spotless Sample.photo_on_screen Sample.photo Sample.no_damage _
              eq_refl eq_refl eq_refl eq_refl eq_refl)
    as (s & Hs & _ & _ & _ & Honly).
  exists s. split; [exact Hs |].
  destruct (Flow.offered s Flow.ClickEstimate) eqn:Ho; [| reflexivity].
  specialize (Honly _ Ho). discriminate Honly.
Defined.

Lemma getSeverityBadge_by_string_witness :
  (@JS.ToString Sample.host JS.VNull ∉ DetectionResults.Object_prototype)
  ∧ @DetectionResults.getSeverityBadge Sample.host JS.VNull = JS.VStr "badge-warning".
Proof.
  assert (Hp : @JS.ToString Sample.host JS.VNull ∉ DetectionResults.Object_prototype).
  { unfold DetectionResults.Object_prototype. simpl. intros Hin.
    repeat (apply elem_of_cons in Hin as [Heq | Hin]; [discriminate Heq |]).
    apply elem_of_nil in Hin. exact Hin. }
  split; [exact Hp |].
  exact (@getSeverityBadge_by_string Sample.host JS.VNull Hp).
Defined.

(** ** Orders on numbers: the confidence bar and the progress bar *)

(** Comparisons of exponents and mantissas, by cases. *)
Ltac order_cases :=
  repeat match goal with
  | |- context [PosDef.Pos.compare_cont Eq ?a ?b] =>
      change (PosDef.Pos.compare_cont Eq a b) with (Pos.compare a b)
  | H : context [PosDef.Pos.compare_cont Eq ?a ?b] |- _ =>
      change (PosDef.Pos.compare_cont Eq a b) with (Pos.compare a b) in H
  end;
  repeat match goal with
  | |- context [(?a ?= ?b)%Z] => destruct (Z.compare_spec a b)
  | H : context [(?a ?= ?b)%Z] |- _ => destruct (Z.compare_spec a b)
  | |- context [(?a ?= ?b)%positive] => destruct (Pos.compare_spec a b)
  | H : context [(?a ?= ?b)%positive] |- _ => destruct (Pos.compare_spec a b)
  end.

Ltac by_spec_float_classes x y z :=
  unfold SFltb, SFleb, SFcompare;
  destruct x as [sx | sx | | sx mx ex], y as [sy | sy | | sy my ey],
    z as [sz | sz | | sz mz ez];
  try destruct sx; try destruct sy; try destruct sz;
  try discriminate; try reflexivity;
  intros H1 H2;
  order_cases; simpl in *; subst; try discriminate; try reflexivity; try lia.

Lemma SFltb_leb_trans (x y z : spec_float) :
  SFltb x y = true → SFleb y z = true → SFltb x z = true.
Proof. by_spec_float_classes x y z. Qed.

Lemma SFleb_leb_trans (x y z : spec_float) :
  SFleb x y = true → SFleb y z = true → SFleb x z = true.
Proof. by_spec_float_classes x y z. Qed.

Lemma float_ltb_leb_trans (x y z : float) :
  (x <? y)%float = true → (y <=? z)%float = true → (x <? z)%float = true.
Proof.
  rewrite !FloatAxioms.ltb_spec, FloatAxioms.leb_spec. apply SFltb_leb_trans.
Qed.

Lemma float_leb_leb_trans (x y z : float) :
  (x <=? y)%float = true → (y <=? z)%float = true → (x <=? z)%float = true.
Proof. rewrite !FloatAxioms.leb_spec. apply SFleb_leb_trans. Qed.

Section Bars.
Import JS DetectionResults.
Context `{Runtime}.

(** The colour of the confidence bar, by the two thresholds. *)
Lemma row_bar_colour (damage : Damage.t) :
  row_bar (damageRow damage)
  = if (0.7 <? Damage.confidence damage)%float then "bg-success-500"
    else if (0.4 <? Damage.confidence damage)%float then "bg-warning-500"
    else "bg-danger-500".
Proof. reflexivity. Qed.

(** X18. The colour of the confidence bar never gets worse as the
    confidence grows: of two damages, the more confident one has the
    green bar whenever the other has it, and the less confident one has
    the red bar whenever the other has it. *)
Theorem confidence_bar_is_monotone (lower higher : Damage.t) :
  (Damage.confidence lower <=? Damage.confidence higher)%float = true →
  (row_bar (damageRow lower) = "bg-success-500"
   → row_bar (damageRow higher) = "bg-success-500")
  ∧ (row_bar (damageRow higher) = "bg-danger-500"
     → row_bar (damageRow lower) = "bg-danger-500").
Proof.
  intros Hle. rewrite !row_bar_colour.
  destruct (0.7 <? Damage.confidence lower)%float eqn:Hl7.
  - rewrite (float_ltb_leb_trans _ _ _ Hl7 Hle). split; [reflexivity | discriminate].
  - destruct (0.4 <? Damage.confidence lower)%float eqn:Hl4.
    + assert (Hh4 := float_ltb_leb_trans _ _ _ Hl4 Hle).
      split; [discriminate |].
      destruct (0.7 <? Damage.confidence higher)%float; [discriminate |].
      rewrite Hh4. discriminate.
    + split; [discriminate | reflexivity].
Qed.

End Bars.

Section Progress.
Import JS Api App Flow.
Context `{Runtime}.

Lemma render_indicator (st : state) (s : screen) :
  render st = Some s →
  indicator s = ((1 <=? step st)%float, (2 <=? step st)%float, (3 <=? step st)%float).
Proof.
  unfold render. destruct (uploadedImage st) as [image |].
  - destruct (slot (detectionData st) _ _) as [results |]; [| discriminate].
    destruct (slot (costEstimation st) _ _) as [estimation |]; [| discriminate].
    intros [= <-]. reflexivity.
  - intros [= <-]. reflexivity.
Qed.

(** X19. Whatever the state, the progress bar never lights a step
    without the steps before it: step 3 is lit only if step 2 is, and
    step 2 only if step 1 is; and a step that is not a number lights
    none. *)
Theorem progress_bar_is_cumulative (st : state) (s : screen) :
  render st = Some s →
  (snd (indicator s) = true → snd (fst (indicator s)) = true)
  ∧ (snd (fst (indicator s)) = true → fst (fst (indicator s)) = true)
  ∧ (PrimFloat.is_nan (step st) = true → indicator s = (false, false, false)).
Proof.
  intros Hs. rewrite (render_indicator st s Hs). simpl.
  split; [| split].
  - apply (float_leb_leb_trans 2 3 (step st)). reflexivity.
  - apply (float_leb_leb_trans 1 2 (step st)). reflexivity.
  - unfold PrimFloat.is_nan. rewrite !FloatAxioms.leb_spec, FloatAxioms.eqb_spec.
    destruct (Prim2SF (step st)) as [sg | sg | | sg m e] eqn:Hstep.
    + destruct sg; discriminate.
    + destruct sg; discriminate.
    + intros _. unfold SFleb, SFcompare.
      destruct (Prim2SF 1), (Prim2SF 2), (Prim2SF 3); reflexivity.
    + unfold SFeqb, SFcompare. destruct sg;
        rewrite Z.compare_refl, Pos.compare_cont_refl; discriminate.
Qed.

End Progress.

Lemma confidence_bar_is_monotone_witness :
  (Damage.confidence Sample.faint_dent <=? Damage.confidence Sample.dent)%float = true
  ∧ (@DetectionResults.row_bar (@DetectionResults.damageRow Sample.host Sample.dent)
     = "bg-danger-500"
     → @DetectionResults.row_bar (@DetectionResults.damageRow Sample.host Sample.faint_dent)
       = "bg-danger-500").
Proof.
  split; [reflexivity |].
  exact (proj2 (@confidence_bar_is_monotone Sample.host Sample.faint_dent Sample.dent
                  eq_refl)).
Defined.

Lemma progress_bar_is_cumulative_witness :
  ∃ s, @Flow.render Sample.host Sample.dent_on_screen = Some s
       ∧ (snd (Flow.indicator s) = true → snd (fst (Flow.indicator s)) = true).
Proof.
  eexists. split; [reflexivity |].
  exact (proj1 (@progress_bar_is_cumulative Sample.host Sample.dent_on_screen _ eq_refl)).
Defined.

(** ** The itemized list of [CostEstimation] *)

Section Itemized.
Import JS CostEstimation.
Context `{Runtime}.

(** X21. [CostEstimation] shows one entry per line item, in the order of
    the items, each with the title and the formatted amounts of its own
    item; whatever the severity of an item, the class of its badge is
    one of three fixed strings, the severity itself never being put in
    the class; and the four rows of the breakdown are the parts, labor,
    paint and markup amounts, in that order. *)
Theorem itemized_list_follows_the_items (data : Estimation.t) :
  let v := CostEstimation data in
  length (view_items v) = length (Estimation.damage_items data)
  ∧ (∀ i it, Estimation.damage_items data !! i = Some it →
       ∃ entry, view_items v !! i = Some entry
                ∧ item_title entry = DetectionResults.title (LineItem.damage_type it)
                ∧ item_subtotal entry = formatCurrency (LineItem.subtotal it)
                ∧ item_parts entry = formatCurrency (LineItem.parts_cost it)
                ∧ item_labor entry = formatCurrency (LineItem.labor_cost it)
                ∧ item_paint entry = formatCurrency (LineItem.paint_cost it)
                ∧ item_badge entry ∈ ["badge badge-danger text-xs mt-1";
                                      "badge badge-warning text-xs mt-1";
                                      "badge badge-success text-xs mt-1"])
  ∧ map row_amount (view_breakdown v)
    = map formatCurrency
        [Estimation.parts_cost data; Estimation.labor_cost data;
         Estimation.paint_cost data; Estimation.markup data].
Proof.
  intros v. subst v. unfold CostEstimation. simpl.
  split; [apply length_map |]. split; [| reflexivity].
  intros i it Hi. rewrite list_lookup_fmap, Hi. simpl.
  eexists. split; [reflexivity |]. simpl. repeat (split; [reflexivity |]).
  unfold itemBadge.
  destruct (strict_eq (LineItem.severity it) (VStr "severe")); simpl;
    [apply list_elem_of_here |].
  destruct (strict_eq (LineItem.severity it) (VStr "moderate")); simpl.
  - apply list_elem_of_further, list_elem_of_here.
  - do 2 apply list_elem_of_further. apply list_elem_of_here.
Qed.

End Itemized.
